(** * Room timer synchronisation: the socket timer handlers

    A shallow embedding of the timer handlers of the study-room backend
    (calculateCurrentTimerState, isUserHost, handleStartTimer,
    handlePauseTimer, handleResetTimer, handleChangeTimerMode,
    handleTimerCompleted) and the properties of the timer state machine.

    Conventions of the embedding.
    - A JavaScript number is [NaN] or a whole number [Num z]; the handlers
      only add, subtract, floor and compare seconds, so fractions and
      infinities are left out, and so is the 2^53 precision limit.
    - A value received from a client is a [JsValue]: undefined, null, a
      boolean, a number or a string (objects and arrays are left out).
    - A [Date] is its number of milliseconds since the epoch; every
      [new Date()] of the source is an explicit argument [now].
    - The room store and the socket server are a [World]: the stored rooms
      and the list of emitted events, oldest first.  A handler is a function
      on worlds that may throw; [try]/[catch] is [tryCatch].  Which
      lookups and which saves the store rejects is a parameter of the
      handlers.
    - [console.log] and [console.error] are not modelled.
    - The chat handler (module [Chat]) reads the text of a message as a
      sequence of UTF-16 code units, which is what [trim] and [length] of
      the language work on. *)

From Stdlib Require Import ZArith String List Bool Lia.
From stdpp Require Import base option strings gmap pretty.

Local Open Scope Z_scope.
Local Open Scope string_scope.

(* ================================================================== *)
(** ** JavaScript values *)

Module Js.

Inductive JsNumber : Type :=
| NaN
| Num (z : Z).

Inductive JsValue : Type :=
| JUndefined
| JNull
| JBoolean (b : bool)
| JNumber (n : JsNumber)
| JString (s : string).

#[global] Instance JsNumber_eq_dec : EqDecision JsNumber := ltac:(solve_decision).

#[global] Instance JsValue_eq_dec : EqDecision JsValue := ltac:(solve_decision).

(** ToBoolean: undefined, null, false, NaN, 0 and the empty string are
    falsy. *)
Definition truthy (v : JsValue) : bool :=
  match v with
  | JUndefined | JNull => false
  | JBoolean b => b
  | JNumber NaN => false
  | JNumber (Num z) => negb (Z.eqb z 0)
  | JString s => negb (String.eqb s "")
  end.

(** [a || b] *)
Definition or (a b : JsValue) : JsValue := if truthy a then a else b.

(** [Math.max(a, b)] and [Math.min(a, b)] on numbers: NaN is contagious. *)
Definition Math_max (a b : JsNumber) : JsNumber :=
  match a, b with
  | Num x, Num y => Num (Z.max x y)
  | _, _ => NaN
  end.

Definition Math_min (a b : JsNumber) : JsNumber :=
  match a, b with
  | Num x, Num y => Num (Z.min x y)
  | _, _ => NaN
  end.

(** [a - b] on numbers. *)
Definition sub (a b : JsNumber) : JsNumber :=
  match a, b with
  | Num x, Num y => Num (x - y)
  | _, _ => NaN
  end.

(** [Array.prototype.includes] on an array of strings: only a string can
    be the same value as an element. *)
Definition includes (l : list string) (v : JsValue) : bool :=
  match v with
  | JString s => existsb (String.eqb s) l
  | _ => false
  end.

Section ToNumber.

(** The conversion of a string to a number (StringToNumber of the
    language) is not spelled out: the results below hold for every
    such conversion. *)
Variable StringToNumber : string -> JsNumber.

Definition ToNumber (v : JsValue) : JsNumber :=
  match v with
  | JUndefined => NaN
  | JNull => Num 0
  | JBoolean b => Num (if b then 1 else 0)
  | JNumber n => n
  | JString s => StringToNumber s
  end.

End ToNumber.

End Js.

Import Js.

(* ================================================================== *)
(** ** Data model *)

Inductive Mode : Type := focus | shortBreak | longBreak.

#[global] Instance Mode_eq_dec : EqDecision Mode := ltac:(solve_decision).

(** Modelled from the spec: the schema of the room document
    (models/Room.js is not among the sources).  [mode] is the enumeration
    of the three modes, [timeRemaining] a number, [startedAt] and
    [pausedAt] a date or null, [cycleCount] a whole number; [timerSettings]
    and each of its durations may be unset. *)
Record TimerState : Type := mkTimerState {
  mode : Mode;
  timeRemaining : JsNumber;
  isRunning : bool;
  startedAt : option Z;
  pausedAt : option Z;
  cycleCount : Z
}.

Record TimerSettings : Type := mkTimerSettings {
  focusDuration : option Z;
  shortBreakDuration : option Z;
  longBreakDuration : option Z
}.

Record Room : Type := mkRoom {
  host : string;
  timerState : TimerState;
  timerSettings : option TimerSettings
}.

(** Assignments [room.timerState.f = v]. *)
Definition assign_mode (v : Mode) (r : Room) : Room :=
  let t := timerState r in
  mkRoom (host r)
    (mkTimerState v (timeRemaining t) (isRunning t) (startedAt t) (pausedAt t) (cycleCount t))
    (timerSettings r).

Definition assign_timeRemaining (v : JsNumber) (r : Room) : Room :=
  let t := timerState r in
  mkRoom (host r)
    (mkTimerState (mode t) v (isRunning t) (startedAt t) (pausedAt t) (cycleCount t))
    (timerSettings r).

Definition assign_isRunning (v : bool) (r : Room) : Room :=
  let t := timerState r in
  mkRoom (host r)
    (mkTimerState (mode t) (timeRemaining t) v (startedAt t) (pausedAt t) (cycleCount t))
    (timerSettings r).

Definition assign_startedAt (v : option Z) (r : Room) : Room :=
  let t := timerState r in
  mkRoom (host r)
    (mkTimerState (mode t) (timeRemaining t) (isRunning t) v (pausedAt t) (cycleCount t))
    (timerSettings r).

Definition assign_pausedAt (v : option Z) (r : Room) : Room :=
  let t := timerState r in
  mkRoom (host r)
    (mkTimerState (mode t) (timeRemaining t) (isRunning t) (startedAt t) v (cycleCount t))
    (timerSettings r).

(** [room.timerState.cycleCount++] *)
Definition increment_cycleCount (r : Room) : Room :=
  let t := timerState r in
  mkRoom (host r)
    (mkTimerState (mode t) (timeRemaining t) (isRunning t) (startedAt t) (pausedAt t)
       (cycleCount t + 1))
    (timerSettings r).

(** The names of the modes, as the clients send them. *)
Definition validModes : list string := ["focus"; "shortBreak"; "longBreak"].

Definition modeName (m : Mode) : string :=
  match m with
  | focus => "focus"
  | shortBreak => "shortBreak"
  | longBreak => "longBreak"
  end.

(** The mode a client value names, if it is one of [validModes]. *)
Definition asMode (v : JsValue) : option Mode :=
  match v with
  | JString s =>
      if String.eqb s "focus" then Some focus
      else if String.eqb s "shortBreak" then Some shortBreak
      else if String.eqb s "longBreak" then Some longBreak
      else None
  | _ => None
  end.

(* ================================================================== *)
(** ** Elapsed-time reconciliation *)

(** [Math.floor((now - startedAt) / 1000)]: [Z.div] rounds down. *)
Definition elapsedSeconds (now startedAt : Z) : Z := (now - startedAt) / 1000.

Definition calculateCurrentTimerState (now : Z) (timerState : TimerState) : TimerState :=
  match isRunning timerState, startedAt timerState with
  | true, Some startedAt =>
      let elapsedSeconds := elapsedSeconds now startedAt in
      let currentTimeRemaining :=
        Math_max (Num 0) (sub (timeRemaining timerState) (Num elapsedSeconds)) in
      mkTimerState (mode timerState) currentTimeRemaining (isRunning timerState)
        (Some startedAt) (pausedAt timerState) (cycleCount timerState)
  | _, _ => timerState
  end.

(** [room.host.toString() === userId.toString()] *)
Definition isUserHost (room : Room) (userId : string) : bool :=
  String.eqb (host room) userId.

(* ================================================================== *)
(** ** The room store, the sockets and the handler monad *)

Inductive Payload : Type :=
| PError (message : string)
| PTimerState (timerState : TimerState)
| PCompleted (completedMode suggestedNextMode : Mode) (cycleCount : Z)
    (timerState : TimerState).

(** [socket.emit(event, payload)] reaches the requester only;
    [io.to(roomId).emit(event, payload)] reaches every member of the room. *)
Inductive Emit : Type :=
| ToSocket (event : string) (payload : Payload)
| ToRoom (roomId : string) (event : string) (payload : Payload).

Definition isBroadcast (e : Emit) : bool :=
  match e with
  | ToRoom _ _ _ => true
  | ToSocket _ _ => false
  end.

Record World : Type := mkWorld {
  db : gmap string Room;
  outbox : list Emit
}.

Inductive Completion (A : Type) : Type :=
| Normal (a : A)
| Thrown.

Arguments Normal {A} a.
Arguments Thrown {A}.

Definition Handler (A : Type) : Type := World -> Completion A * World.

#[global] Instance Handler_ret : MRet Handler :=
  fun A a w => (Normal a, w).

#[global] Instance Handler_bind : MBind Handler :=
  fun A B k m w =>
    match m w with
    | (Normal a, w') => k a w'
    | (Thrown, w') => (Thrown, w')
    end.

(** [try { body } catch (error) { handler }] *)
Definition tryCatch (body handler : Handler unit) : Handler unit :=
  fun w =>
    match body w with
    | (Normal _, w') => (Normal tt, w')
    | (Thrown, w') => handler w'
    end.

Definition socket_emit (event : string) (payload : Payload) : Handler unit :=
  fun w => (Normal tt, mkWorld (db w) (outbox w ++ [ToSocket event payload])).

Definition io_to_emit (roomId event : string) (payload : Payload) : Handler unit :=
  fun w => (Normal tt, mkWorld (db w) (outbox w ++ [ToRoom roomId event payload])).

(** The world a handler leaves behind. *)
Definition run (h : Handler unit) (w : World) : World := snd (h w).

(** [x || d] for a duration that is a number or unset, and for two
    numbers. *)
Definition orDefault (x : option Z) (d : Z) : Z :=
  match x with
  | Some z => if Z.eqb z 0 then d else z
  | None => d
  end.

Definition orElse (a b : Z) : Z := if Z.eqb a 0 then b else a.

(** The object [timeByMode] of handleResetTimer and handleChangeTimerMode,
    read at a mode. *)
Definition timeByMode (room : Room) (m : Mode) : Z :=
  match m with
  | focus => orDefault (timerSettings room ≫= focusDuration) (25 * 60)
  | shortBreak => orDefault (timerSettings room ≫= shortBreakDuration) (5 * 60)
  | longBreak => orDefault (timerSettings room ≫= longBreakDuration) (15 * 60)
  end.

(** *** The assignments of each handler

    What a handler assigns to the loaded document between its guards and
    [room.save()], statement by statement. *)

(** handleStartTimer *)
Definition startTimer_update (now : Z) (room : Room) : Room :=
  let room := assign_isRunning true room in
  let room := assign_startedAt (Some now) room in
  room.

(** handlePauseTimer.  [now] is the clock read inside
    calculateCurrentTimerState, [now'] the later read for [pausedAt]. *)
Definition pauseTimer_update (StringToNumber : string -> JsNumber) (now now' : Z)
    (timeRemaining0 : JsValue) (room : Room) : Room :=
  let currentTimeRemaining := timeRemaining0 in
  let currentTimeRemaining :=
    if isRunning (timerState room) && bool_decide (is_Some (startedAt (timerState room)))
    then
      let currentTimerState := calculateCurrentTimerState now (timerState room) in
      JNumber
        (Math_min
           (ToNumber StringToNumber
              (Js.or currentTimeRemaining (JNumber (timeRemaining (timerState room)))))
           (timeRemaining currentTimerState))
    else currentTimeRemaining in
  let room := assign_isRunning false room in
  let room :=
    assign_timeRemaining
      (Math_max (Num 0) (ToNumber StringToNumber currentTimeRemaining)) room in
  let room := assign_pausedAt (Some now') room in
  let room := assign_startedAt None room in
  room.

(** handleResetTimer *)
Definition resetTimer_update (room : Room) : Room :=
  let timeByMode := timeByMode room in
  let room :=
    assign_timeRemaining
      (Num (orElse (timeByMode (mode (timerState room))) (timeByMode focus))) room in
  let room := assign_isRunning false room in
  let room := assign_startedAt None room in
  let room := assign_pausedAt None room in
  room.

(** handleChangeTimerMode, once [mode0] has passed the validation. *)
Definition changeTimerMode_update (mode0 : Mode) (room : Room) : Room :=
  let room := assign_mode mode0 room in
  let room := assign_isRunning false room in
  let room := assign_startedAt None room in
  let room := assign_pausedAt None room in
  let timeByMode := timeByMode room in
  let room := assign_timeRemaining (Num (timeByMode mode0)) room in
  let room :=
    if negb (bool_decide (mode0 = focus)) && bool_decide (mode (timerState room) = focus)
    then increment_cycleCount room
    else room in
  room.

(** handleTimerCompleted: the suggested next mode and the document. *)
Definition timerCompleted_update (room : Room) : Mode * Room :=
  let room := assign_isRunning false room in
  let room := assign_timeRemaining (Num 0) room in
  let room := assign_startedAt None room in
  let room := assign_pausedAt None room in
  let suggestedNextMode := shortBreak in
  if bool_decide (mode (timerState room) = focus)
  then
    let suggestedNextMode :=
      if Z.eqb (Z.rem (cycleCount (timerState room)) 4) 3 then longBreak else shortBreak in
    let room := increment_cycleCount room in
    (suggestedNextMode, room)
  else
    let suggestedNextMode := focus in
    (suggestedNextMode, room).

(** *** The handlers *)

Section Handlers.

(** What the store does is outside the handlers: [Room.findById] rejects
    for the ids in [findRejects], and [room.save()] rejects the documents
    in [saveRejects] (a failed validation or a storage failure). *)
Variable findRejects : string -> bool.
Variable saveRejects : Room -> bool.
Variable StringToNumber : string -> JsNumber.

Definition Room_findById (roomId : string) : Handler (option Room) :=
  fun w => if findRejects roomId then (Thrown, w) else (Normal (db w !! roomId), w).

Definition Room_save (roomId : string) (room : Room) : Handler unit :=
  fun w =>
    if saveRejects room then (Thrown, w)
    else (Normal tt, mkWorld (<[roomId := room]> (db w)) (outbox w)).

Definition handleStartTimer (now : Z) (userId roomId : string) : Handler unit :=
  tryCatch
    (room ← Room_findById roomId;
     match room with
     | None => socket_emit "error" (PError "Room not found")
     | Some room =>
         if negb (isUserHost room userId)
         then socket_emit "error" (PError "Only host can control timer")
         else
           let room := startTimer_update now room in
           Room_save roomId room;;
           io_to_emit roomId "timer-started" (PTimerState (timerState room))
     end)
    (socket_emit "error" (PError "Failed to start timer")).

Definition handlePauseTimer (now now' : Z) (userId roomId : string)
    (timeRemaining0 : JsValue) : Handler unit :=
  tryCatch
    (room ← Room_findById roomId;
     match room with
     | None => socket_emit "error" (PError "Room not found")
     | Some room =>
         if negb (isUserHost room userId)
         then socket_emit "error" (PError "Only host can control timer")
         else
           let room := pauseTimer_update StringToNumber now now' timeRemaining0 room in
           Room_save roomId room;;
           io_to_emit roomId "timer-paused" (PTimerState (timerState room))
     end)
    (socket_emit "error" (PError "Failed to pause timer")).

Definition handleResetTimer (userId roomId : string) : Handler unit :=
  tryCatch
    (room ← Room_findById roomId;
     match room with
     | None => socket_emit "error" (PError "Room not found")
     | Some room =>
         if negb (isUserHost room userId)
         then socket_emit "error" (PError "Only host can control timer")
         else
           let room := resetTimer_update room in
           Room_save roomId room;;
           io_to_emit roomId "timer-reset" (PTimerState (timerState room))
     end)
    (socket_emit "error" (PError "Failed to reset timer")).

(** [validModes.includes(mode)] holds exactly when [asMode] finds the
    mode (lemma [asMode_includes]); the mode found is what is stored. *)
Definition handleChangeTimerMode (userId roomId : string) (mode0 : JsValue) :
    Handler unit :=
  tryCatch
    (room ← Room_findById roomId;
     match room with
     | None => socket_emit "error" (PError "Room not found")
     | Some room =>
         if negb (isUserHost room userId)
         then socket_emit "error" (PError "Only host can control timer")
         else
           match asMode mode0 with
           | None => socket_emit "error" (PError "Invalid timer mode")
           | Some mode0 =>
               let room := changeTimerMode_update mode0 room in
               Room_save roomId room;;
               io_to_emit roomId "timer-mode-changed" (PTimerState (timerState room))
           end
     end)
    (socket_emit "error" (PError "Failed to change timer mode")).

Definition handleTimerCompleted (userId roomId : string) : Handler unit :=
  tryCatch
    (room ← Room_findById roomId;
     match room with
     | None => socket_emit "error" (PError "Room not found")
     | Some room =>
         if negb (isUserHost room userId)
         then socket_emit "error" (PError "Only host can control timer")
         else
           let '(suggestedNextMode, room) := timerCompleted_update room in
           Room_save roomId room;;
           io_to_emit roomId "timer-completed"
             (PCompleted (mode (timerState room)) suggestedNextMode
                (cycleCount (timerState room)) (timerState room))
     end)
    (socket_emit "error" (PError "Failed to complete timer")).

End Handlers.

(** One of the five operations on the timer of a room, as a request of a
    client. *)
Inductive Request : Type :=
| StartTimer
| PauseTimer (timeRemaining : JsValue)
| ResetTimer
| ChangeTimerMode (mode : JsValue)
| TimerCompleted.

Definition handle (findRejects : string -> bool) (saveRejects : Room -> bool)
    (StringToNumber : string -> JsNumber) (now now' : Z) (userId roomId : string)
    (request : Request) : Handler unit :=
  match request with
  | StartTimer => handleStartTimer findRejects saveRejects now userId roomId
  | PauseTimer timeRemaining =>
      handlePauseTimer findRejects saveRejects StringToNumber now now' userId roomId
        timeRemaining
  | ResetTimer => handleResetTimer findRejects saveRejects userId roomId
  | ChangeTimerMode mode => handleChangeTimerMode findRejects saveRejects userId roomId mode
  | TimerCompleted => handleTimerCompleted findRejects saveRejects userId roomId
  end.

(** The two shapes of world a handler can leave: an error sent to the
    requester and nothing else, or the document saved and one event sent to
    the room. *)
Definition refused (message : string) (w : World) : World :=
  mkWorld (db w) (outbox w ++ [ToSocket "error" (PError message)]).

Definition committed (roomId : string) (room : Room) (event : string) (payload : Payload)
    (w : World) : World :=
  mkWorld (<[roomId := room]> (db w)) (outbox w ++ [ToRoom roomId event payload]).

(** The timer state of a room as the store holds it. *)
Definition persisted (w : World) (roomId : string) : option TimerState :=
  timerState <$> db w !! roomId.

(** The events a handler added to the outbox. *)
Definition emitted (w w' : World) : list Emit := drop (length (outbox w)) (outbox w').

(** [isRunning] and [startedAt] agree. *)
Definition coherent (t : TimerState) : Prop :=
  isRunning t = true <-> startedAt t <> None.

(** A remaining time that is a non-negative whole number. *)
Definition nonNegative (n : JsNumber) : Prop := exists z : Z, n = Num z /\ 0 <= z.



(** The timer state an event carries to the room. *)
Definition payloadTimerState (p : Payload) : option TimerState :=
  match p with
  | PError _ => None
  | PTimerState t => Some t
  | PCompleted _ _ _ t => Some t
  end.

(* ================================================================== *)
(** ** The statements of the specification that the code is compared with *)

(** The suggestion after a focus interval in the words of the
    specification: long break when the updated count is 3 modulo 4. *)
Definition suggestedByUpdatedCount (updatedCycleCount : Z) : Mode :=
  if Z.eqb (updatedCycleCount mod 4) 3 then longBreak else shortBreak.

(** The remaining time after Pause in the words of the specification: the
    minimum of the suggestion (the stored value if there is none) and the
    reconciled value, floored at 0. *)
Definition reconciled (stored elapsed : Z) : Z := Z.max 0 (stored - elapsed).

Definition pausedRemaining (suggestion : option Z) (stored elapsed : Z) : Z :=
  Z.max 0 (Z.min (default stored suggestion) (reconciled stored elapsed)).

(** The value a client sends for a suggestion, and the suggestion the
    handler acts on: 0 counts as none. *)
Definition suggestionValue (suggestion : option Z) : JsValue :=
  match suggestion with
  | Some c => JNumber (Num c)
  | None => JUndefined
  end.

Definition effectiveSuggestion (suggestion : option Z) : option Z :=
  match suggestion with
  | Some c => if Z.eqb c 0 then None else Some c
  | None => None
  end.

(* ================================================================== *)
(** ** Sample data *)

(** A store that never rejects, and a string conversion that finds no
    number. *)
Definition never {A : Type} : A -> bool := fun _ => false.
Definition noNumber : string -> JsNumber := fun _ => NaN.


(** A room hosted by "host-1", with default settings. *)
Definition sampleRoom (m : Mode) (remaining : Z) (started : option Z) (cycles : Z) : Room :=
  mkRoom "host-1"
    (mkTimerState m (Num remaining) (bool_decide (is_Some started)) started None cycles)
    None.

Definition sampleWorld (room : Room) : World := mkWorld {[ "room-1" := room ]} [].

(* ================================================================== *)
(** ** Sequences of requests and what the store keeps *)

(** A request as the server receives it: the two clock reads, the
    requester, the room and the operation. *)
Record Call : Type := mkCall {
  callNow : Z;
  callNow' : Z;
  callUser : string;
  callRoom : string;
  callRequest : Request
}.

(** The handlers run one request after the other, oldest first. *)
Definition serve (findRejects : string -> bool) (saveRejects : Room -> bool)
    (StringToNumber : string -> JsNumber) (calls : list Call) (w : World) : World :=
  fold_left
    (fun w c =>
       run (handle findRejects saveRejects StringToNumber (callNow c) (callNow' c)
              (callUser c) (callRoom c) (callRequest c)) w)
    calls w.

(** The message of the [catch] block of each handler. *)
Definition failureMessage (request : Request) : string :=
  match request with
  | StartTimer => "Failed to start timer"
  | PauseTimer _ => "Failed to pause timer"
  | ResetTimer => "Failed to reset timer"
  | ChangeTimerMode _ => "Failed to change timer mode"
  | TimerCompleted => "Failed to complete timer"
  end.

(** The durations used where the room sets none: 25, 5 and 15 minutes. *)
Definition defaultDuration (m : Mode) : Z :=
  match m with
  | focus => 1500
  | shortBreak => 300
  | longBreak => 900
  end.

(** The duration the settings of a room give for a mode, if they give one. *)
Definition customDuration (room : Room) (m : Mode) : option Z :=
  match timerSettings room with
  | Some st =>
      match m with
      | focus => focusDuration st
      | shortBreak => shortBreakDuration st
      | longBreak => longBreakDuration st
      end
  | None => None
  end.

(** The document the handler of a request saves for a loaded room, if the
    request passes the validation of its handler. *)
Definition updateOf (StringToNumber : string -> JsNumber) (now now' : Z)
    (request : Request) (room : Room) : option Room :=
  match request with
  | StartTimer => Some (startTimer_update now room)
  | PauseTimer timeRemaining =>
      Some (pauseTimer_update StringToNumber now now' timeRemaining room)
  | ResetTimer => Some (resetTimer_update room)
  | ChangeTimerMode mode => (fun m => changeTimerMode_update m room) <$> asMode mode
  | TimerCompleted => Some (snd (timerCompleted_update room))
  end.

(** Every stored timer agrees on [isRunning] and [startedAt]. *)
Definition coherentStore (w : World) : Prop :=
  forall (roomId : string) (room : Room),
    db w !! roomId = Some room -> coherent (timerState room).


(* ================================================================== *)
(** ** The chat handler *)

Module Chat.

(** WhiteSpace and LineTerminator code units, the ones [trim] removes: tab,
    line feed, vertical tab, form feed, carriage return, space, no-break
    space, U+1680, U+2000 to U+200A, U+2028, U+2029, U+202F, U+205F, U+3000
    and U+FEFF. *)
Definition isWhiteSpace (c : N) : bool :=
  existsb (N.eqb c)
    [9; 10; 11; 12; 13; 32; 160; 5760; 8232; 8233; 8239; 8287; 12288; 65279]%N
  || (N.leb 8192 c && N.leb c 8202).

Fixpoint trimStart (s : list N) : list N :=
  match s with
  | [] => []
  | c :: rest => if isWhiteSpace c then trimStart rest else s
  end.

Definition trimEnd (s : list N) : list N := rev (trimStart (rev s)).

(** [s.trim()] *)
Definition trim (s : list N) : list N := trimEnd (trimStart s).

(** What a client may send as [message]. *)
Inductive MessageValue : Type :=
| MUndefined
| MNull
| MBoolean (b : bool)
| MNumber (n : JsNumber)
| MString (units : list N).

Definition truthy (v : MessageValue) : bool :=
  match v with
  | MUndefined | MNull => false
  | MBoolean b => b
  | MNumber NaN => false
  | MNumber (Num z) => negb (Z.eqb z 0)
  | MString units => negb (Nat.eqb (length units) 0)
  end.

(** [socket.user]: the authenticated requester; the name and the e-mail
    address may be missing. *)
Record SocketUser : Type := mkSocketUser {
  id : string;
  name : option string;
  email : option string
}.

(** Modelled from the spec: the part of the room document the chat handler
    reads (models/Room.js is not among the sources): the entries of
    [room.users], each with a [userId] that may be null; a [userId] that is
    the empty string is falsy like null. *)
Record RoomUser : Type := mkRoomUser {
  userId : option string
}.

Record Room : Type := mkRoom {
  users : list RoomUser
}.

Record MessageData : Type := mkMessageData {
  md_id : string;
  md_userId : string;
  md_name : string;
  md_message : list N;
  md_timestamp : Z;
  md_type : string
}.

(** [socket.emit('error', { message })] reaches the requester only;
    [io.to(roomId).emit(event, messageData)] reaches the room. *)
Inductive Emit : Type :=
| ToSocket (event : string) (message : string)
| ToRoom (roomId : string) (event : string) (data : MessageData).

Record World : Type := mkWorld {
  db : gmap string Room;
  outbox : list Emit
}.

Definition socket_emit (event message : string) (w : World) : World :=
  mkWorld (db w) (outbox w ++ [ToSocket event message]).

Definition io_to_emit (roomId event : string) (data : MessageData) (w : World) : World :=
  mkWorld (db w) (outbox w ++ [ToRoom roomId event data]).

(** [a || b] for a string that may be missing: missing and empty are
    falsy. *)
Definition orString (a : option string) (b : string) : string :=
  match a with
  | Some s => if String.eqb s "" then b else s
  | None => b
  end.

(** [room.users.some(user => user.userId &&
      user.userId.toString() === socket.user.id.toString())] *)
Definition isUserInRoom (room : Room) (user : SocketUser) : bool :=
  existsb
    (fun u =>
       match userId u with
       | Some i => negb (String.eqb i "") && String.eqb i (id user)
       | None => false
       end)
    (users room).

(** The object [messageData]; [now] is the clock read by [Date.now()],
    [now'] the later read for [timestamp]. *)
Definition messageData (now now' : Z) (user : SocketUser) (trimmedMessage : list N) :
    MessageData :=
  mkMessageData
    (pretty now +:+ "-" +:+ id user)
    (id user)
    (orString (name user) (orString (email user) "Unknown User"))
    trimmedMessage
    now'
    "user".

(** handleSendMessage.  The room id is a string here, the empty one
    standing for a missing one, which is falsy too.  [findRejects] tells for
    which ids [Room.findById] rejects; a rejection and the TypeError of
    [message.trim()] on a value that is not a string end in the [catch]
    block. *)
Definition handleSendMessage (findRejects : string -> bool) (now now' : Z)
    (user : SocketUser) (roomId : string) (message : MessageValue) (w : World) : World :=
  let caught := socket_emit "error" "Failed to send message" in
  if String.eqb roomId "" || negb (truthy message)
  then socket_emit "error" "Room ID and message are required" w
  else
    match message with
    | MString units =>
        let trimmedMessage := trim units in
        if Nat.eqb (length trimmedMessage) 0
        then socket_emit "error" "Message cannot be empty" w
        else if Nat.ltb 500 (length trimmedMessage)
        then socket_emit "error" "Message too long (max 500 characters)" w
        else if findRejects roomId then caught w
        else
          match db w !! roomId with
          | None => socket_emit "error" "Room not found" w
          | Some room =>
              if negb (isUserInRoom room user)
              then socket_emit "error" "You are not in this room" w
              else io_to_emit roomId "new-message" (messageData now now' user trimmedMessage) w
          end
    | _ => caught w
    end.

(** A requester who is in the sample room, with no name on record. *)
Definition sampleUser : SocketUser := mkSocketUser "user-7" None (Some "u7@example.org").

Definition sampleWorld : World :=
  mkWorld {[ "room-1" := mkRoom [mkRoomUser None; mkRoomUser (Some "user-7")] ]} [].

End Chat.

(* ================================================================== *)
(** ** The outcome of each handler *)

Section Outcomes.

Variable findRejects : string -> bool.
Variable saveRejects : Room -> bool.
Variable StringToNumber : string -> JsNumber.

Ltac run_handler :=
  unfold run, tryCatch, mbind, Handler_bind, Room_findById, Room_save,
    socket_emit, io_to_emit, refused, committed;
  cbn;
  repeat
    match goal with
    | |- context [findRejects ?x] => destruct (findRejects x); cbn
    | |- context [db ?w !! ?x] => destruct (db w !! x); cbn
    | |- context [isUserHost ?r ?u] => destruct (isUserHost r u); cbn
    | |- context [asMode ?v] => destruct (asMode v); cbn
    | |- context [timerCompleted_update ?r] => destruct (timerCompleted_update r); cbn
    | |- context [saveRejects ?r] => destruct (saveRejects r); cbn
    end;
  try reflexivity.

Lemma handleStartTimer_run (now : Z) (userId roomId : string) (w : World) :
  run (handleStartTimer findRejects saveRejects now userId roomId) w =
  if findRejects roomId then refused "Failed to start timer" w
  else
    match db w !! roomId with
    | None => refused "Room not found" w
    | Some room =>
        if isUserHost room userId then
          let room' := startTimer_update now room in
          if saveRejects room' then refused "Failed to start timer" w
          else committed roomId room' "timer-started" (PTimerState (timerState room')) w
        else refused "Only host can control timer" w
    end.
Proof. unfold handleStartTimer. run_handler. Qed.

Lemma handlePauseTimer_run (now now' : Z) (userId roomId : string) (v : JsValue)
    (w : World) :
  run (handlePauseTimer findRejects saveRejects StringToNumber now now' userId roomId v) w =
  if findRejects roomId then refused "Failed to pause timer" w
  else
    match db w !! roomId with
    | None => refused "Room not found" w
    | Some room =>
        if isUserHost room userId then
          let room' := pauseTimer_update StringToNumber now now' v room in
          if saveRejects room' then refused "Failed to pause timer" w
          else committed roomId room' "timer-paused" (PTimerState (timerState room')) w
        else refused "Only host can control timer" w
    end.
Proof. unfold handlePauseTimer. run_handler. Qed.

Lemma handleResetTimer_run (userId roomId : string) (w : World) :
  run (handleResetTimer findRejects saveRejects userId roomId) w =
  if findRejects roomId then refused "Failed to reset timer" w
  else
    match db w !! roomId with
    | None => refused "Room not found" w
    | Some room =>
        if isUserHost room userId then
          let room' := resetTimer_update room in
          if saveRejects room' then refused "Failed to reset timer" w
          else committed roomId room' "timer-reset" (PTimerState (timerState room')) w
        else refused "Only host can control timer" w
    end.
Proof. unfold handleResetTimer. run_handler. Qed.

Lemma handleChangeTimerMode_run (userId roomId : string) (v : JsValue) (w : World) :
  run (handleChangeTimerMode findRejects saveRejects userId roomId v) w =
  if findRejects roomId then refused "Failed to change timer mode" w
  else
    match db w !! roomId with
    | None => refused "Room not found" w
    | Some room =>
        if isUserHost room userId then
          match asMode v with
          | None => refused "Invalid timer mode" w
          | Some m =>
              let room' := changeTimerMode_update m room in
              if saveRejects room' then refused "Failed to change timer mode" w
              else
                committed roomId room' "timer-mode-changed"
                  (PTimerState (timerState room')) w
          end
        else refused "Only host can control timer" w
    end.
Proof. unfold handleChangeTimerMode. run_handler. Qed.

Lemma handleTimerCompleted_run (userId roomId : string) (w : World) :
  run (handleTimerCompleted findRejects saveRejects userId roomId) w =
  if findRejects roomId then refused "Failed to complete timer" w
  else
    match db w !! roomId with
    | None => refused "Room not found" w
    | Some room =>
        if isUserHost room userId then
          let suggestedNextMode := fst (timerCompleted_update room) in
          let room' := snd (timerCompleted_update room) in
          if saveRejects room' then refused "Failed to complete timer" w
          else
            committed roomId room' "timer-completed"
              (PCompleted (mode (timerState room')) suggestedNextMode
                 (cycleCount (timerState room')) (timerState room')) w
        else refused "Only host can control timer" w
    end.
Proof. unfold handleTimerCompleted. run_handler. Qed.

End Outcomes.

(* ================================================================== *)
(** ** Basic facts *)

Lemma asMode_modeName (m : Mode) : asMode (JString (modeName m)) = Some m.
Proof. destruct m; reflexivity. Qed.

Lemma asMode_Some (v : JsValue) (m : Mode) : asMode v = Some m -> v = JString (modeName m).
Proof.
  destruct v as [ | | b | n | s]; cbn; try discriminate.
  destruct (String.eqb_spec s "focus") as [-> | _]; [intros [= <-]; reflexivity |].
  destruct (String.eqb_spec s "shortBreak") as [-> | _]; [intros [= <-]; reflexivity |].
  destruct (String.eqb_spec s "longBreak") as [-> | _]; [intros [= <-]; reflexivity |].
  discriminate.
Qed.

(** The validation of handleChangeTimerMode, [validModes.includes(mode)],
    passes exactly when [asMode] finds a mode. *)
Lemma asMode_includes (v : JsValue) :
  includes validModes v = bool_decide (is_Some (asMode v)).
Proof.
  destruct v as [ | | b | n | s]; cbn; try reflexivity.
  destruct (String.eqb s "focus"); [reflexivity |].
  destruct (String.eqb s "shortBreak"); [reflexivity |].
  destruct (String.eqb s "longBreak"); reflexivity.
Qed.

Lemma asMode_None (v : JsValue) :
  v <> JString "focus" -> v <> JString "shortBreak" -> v <> JString "longBreak" ->
  asMode v = None.
Proof.
  intros Hf Hs Hl.
  destruct (asMode v) as [m | ] eqn:E; [ | reflexivity].
  apply asMode_Some in E. destruct m; cbn in E; contradiction.
Qed.

Lemma emitted_refused (message : string) (w : World) :
  emitted w (refused message w) = [ToSocket "error" (PError message)].
Proof. unfold emitted, refused; cbn. apply drop_app_length. Qed.

Lemma emitted_committed (roomId : string) (room : Room) (event : string) (p : Payload)
    (w : World) :
  emitted w (committed roomId room event p w) = [ToRoom roomId event p].
Proof. unfold emitted, committed; cbn. apply drop_app_length. Qed.

Lemma persisted_refused (message : string) (w : World) (roomId : string) :
  persisted (refused message w) roomId = persisted w roomId.
Proof. reflexivity. Qed.

Lemma persisted_committed (roomId : string) (room : Room) (event : string) (p : Payload)
    (w : World) :
  persisted (committed roomId room event p w) roomId = Some (timerState room).
Proof. unfold persisted, committed; cbn. rewrite lookup_insert_eq. reflexivity. Qed.

Lemma persisted_committed_ne (roomId other : string) (room : Room) (event : string)
    (p : Payload) (w : World) :
  roomId <> other ->
  persisted (committed roomId room event p w) other = persisted w other.
Proof.
  intros Hne. unfold persisted, committed; cbn. rewrite lookup_insert_ne by exact Hne.
  reflexivity.
Qed.

(* ================================================================== *)
(** ** Change Mode and the cycle count *)

(** The comparison with "focus" reads the mode that was just assigned, so
    its two halves exclude each other and the count is never incremented. *)
Lemma changeTimerMode_update_cycleCount (m : Mode) (room : Room) :
  cycleCount (timerState (changeTimerMode_update m room)) = cycleCount (timerState room).
Proof.
  unfold changeTimerMode_update; cbn.
  destruct m; reflexivity.
Qed.

Lemma changeTimerMode_update_timerState (m : Mode) (room : Room) :
  timerState (changeTimerMode_update m room) =
  mkTimerState m (Num (timeByMode room m)) false None None (cycleCount (timerState room)).
Proof. unfold changeTimerMode_update; cbn. destruct m; reflexivity. Qed.

(** Whatever the request and its outcome, Change Mode leaves the cycle
    count of every stored room as it was. *)
Lemma handleChangeTimerMode_cycleCount (findRejects : string -> bool)
    (saveRejects : Room -> bool) (userId roomId : string) (v : JsValue) (w : World)
    (other : string) :
  cycleCount <$> persisted (run (handleChangeTimerMode findRejects saveRejects userId roomId v) w) other
  = cycleCount <$> persisted w other.
Proof.
  rewrite handleChangeTimerMode_run.
  destruct (findRejects roomId); [reflexivity |].
  destruct (db w !! roomId) as [room | ] eqn:Hroom; [ | reflexivity].
  destruct (isUserHost room userId); [ | reflexivity].
  destruct (asMode v) as [m | ]; [ | reflexivity].
  cbn zeta. destruct (saveRejects _); [reflexivity |].
  destruct (decide (roomId = other)) as [<- | Hne].
  - rewrite persisted_committed. unfold persisted. rewrite Hroom. cbn.
    rewrite changeTimerMode_update_cycleCount. reflexivity.
  - rewrite persisted_committed_ne by exact Hne. reflexivity.
Qed.

(** C1 (the code departs from the claim): the host changes the mode of a
    room from focus to shortBreak; the operation completes, the mode and the
    duration change, and the cycle count is still 0, not 1. *)
Theorem changeMode_focus_to_shortBreak_keeps_cycleCount :
  let room := sampleRoom focus 1500 None 0 in
  let w := sampleWorld room in
  let w' := run (handleChangeTimerMode never never "host-1" "room-1" (JString "shortBreak")) w in
  mode (timerState room) = focus /\
  cycleCount (timerState room) = 0 /\
  persisted w' "room-1" = Some (mkTimerState shortBreak (Num 300) false None None 0) /\
  emitted w w' =
    [ToRoom "room-1" "timer-mode-changed"
       (PTimerState (mkTimerState shortBreak (Num 300) false None None 0))].
Proof. cbn zeta. repeat split; reflexivity. Qed.

(* ================================================================== *)
(** ** Complete and the suggested next mode *)

Lemma timerCompleted_update_focus (room : Room) :
  mode (timerState room) = focus ->
  timerCompleted_update room =
  (if Z.eqb (Z.rem (cycleCount (timerState room)) 4) 3 then longBreak else shortBreak,
   mkRoom (host room)
     (mkTimerState focus (Num 0) false None None (cycleCount (timerState room) + 1))
     (timerSettings room)).
Proof.
  destruct room as [h [m t r s p c] st]; cbn. intros ->. reflexivity.
Qed.

Lemma timerCompleted_update_break (room : Room) :
  mode (timerState room) <> focus ->
  timerCompleted_update room =
  (focus,
   mkRoom (host room)
     (mkTimerState (mode (timerState room)) (Num 0) false None None
        (cycleCount (timerState room)))
     (timerSettings room)).
Proof.
  destruct room as [h [m t r s p c] st]; cbn. intros Hmode.
  destruct m; [contradiction | reflexivity | reflexivity].
Qed.

(** C2, counterexample: with cycleCount 2 and mode focus, Complete stores
    and broadcasts cycleCount 3 and suggests shortBreak, where the policy
    in the words of the specification, applied to the updated count 3,
    gives longBreak. *)
Lemma complete_after_two_cycles_suggests_shortBreak :
  let room := sampleRoom focus 0 None 2 in
  let w := sampleWorld room in
  let w' := run (handleTimerCompleted never never "host-1" "room-1") w in
  emitted w w' =
    [ToRoom "room-1" "timer-completed"
       (PCompleted focus shortBreak 3 (mkTimerState focus (Num 0) false None None 3))] /\
  suggestedByUpdatedCount 3 = longBreak /\
  fst (timerCompleted_update room) <>
    suggestedByUpdatedCount (cycleCount (timerState (snd (timerCompleted_update room)))).
Proof. cbn zeta. repeat split; [reflexivity .. | discriminate]. Qed.

(** C2, amended: Complete by the host stores the stopped state and
    broadcasts it.  In focus mode the cycle count is incremented by 1 and the
    suggested next mode is longBreak if the count before the increment is 3
    modulo 4 (the updated count is a multiple of 4), otherwise shortBreak.
    In a break mode the suggestion is focus and the count is unchanged. *)
Theorem complete_suggests_by_previous_count
    (findRejects : string -> bool) (saveRejects : Room -> bool)
    (userId roomId : string) (w : World) (room : Room) :
  findRejects roomId = false ->
  db w !! roomId = Some room ->
  isUserHost room userId = true ->
  saveRejects (snd (timerCompleted_update room)) = false ->
  0 <= cycleCount (timerState room) ->
  let c := cycleCount (timerState room) in
  exists (suggested : Mode) (t' : TimerState),
    run (handleTimerCompleted findRejects saveRejects userId roomId) w =
      committed roomId (mkRoom (host room) t' (timerSettings room)) "timer-completed"
        (PCompleted (mode (timerState room)) suggested (cycleCount t') t') w /\
    (mode (timerState room) = focus ->
       t' = mkTimerState focus (Num 0) false None None (c + 1) /\
       suggested = (if Z.eqb (c mod 4) 3 then longBreak else shortBreak) /\
       (suggested = longBreak <-> (c + 1) mod 4 = 0)) /\
    (mode (timerState room) <> focus ->
       t' = mkTimerState (mode (timerState room)) (Num 0) false None None c /\
       suggested = focus).
Proof.
  intros Hfind Hroom Hhost Hsave Hc c.
  rewrite handleTimerCompleted_run, Hfind, Hroom, Hhost. cbn zeta. rewrite Hsave.
  destruct (decide (mode (timerState room) = focus)) as [Hmode | Hmode].
  - rewrite (timerCompleted_update_focus room Hmode); cbn [fst snd].
    rewrite Z.rem_mod_nonneg by lia. fold c.
    exists (if Z.eqb (c mod 4) 3 then longBreak else shortBreak),
      (mkTimerState focus (Num 0) false None None (c + 1)).
    split; [cbn; rewrite Hmode; reflexivity |].
    split; [ | intros Hne; contradiction].
    intros _. split; [reflexivity |]. split; [reflexivity |].
    destruct (Z.eqb_spec (c mod 4) 3) as [E | E].
    + split; [intros _ | reflexivity].
      rewrite <- Zplus_mod_idemp_l, E. reflexivity.
    + split; [discriminate |]. intros H0. exfalso. apply E.
      pose proof (Z.mod_pos_bound c 4 ltac:(lia)) as Hb.
      rewrite <- Zplus_mod_idemp_l in H0.
      assert (Hcases : c mod 4 = 0 \/ c mod 4 = 1 \/ c mod 4 = 2 \/ c mod 4 = 3) by lia.
      destruct Hcases as [H | [H | [H | H]]]; rewrite H in H0; cbn in H0;
        first [discriminate | exact H].
  - rewrite (timerCompleted_update_break room Hmode); cbn [fst snd].
    exists focus, (mkTimerState (mode (timerState room)) (Num 0) false None None c).
    split; [cbn; reflexivity |].
    split; [intros Heq; contradiction |].
    intros _. split; reflexivity.
Qed.

Lemma complete_suggests_by_previous_count_witness :
  exists (suggested : Mode) (t' : TimerState),
    run (handleTimerCompleted never never "host-1" "room-1")
      (sampleWorld (sampleRoom focus 0 None 3)) =
      committed "room-1" (mkRoom "host-1" t' None) "timer-completed"
        (PCompleted focus suggested (cycleCount t') t')
        (sampleWorld (sampleRoom focus 0 None 3)) /\
    (focus = focus ->
       t' = mkTimerState focus (Num 0) false None None (3 + 1) /\
       suggested = (if Z.eqb (3 mod 4) 3 then longBreak else shortBreak) /\
       (suggested = longBreak <-> (3 + 1) mod 4 = 0)) /\
    (focus <> focus ->
       t' = mkTimerState focus (Num 0) false None None 3 /\
       suggested = focus).
Proof.
  apply (complete_suggests_by_previous_count never never "host-1" "room-1"
           (sampleWorld (sampleRoom focus 0 None 3)) (sampleRoom focus 0 None 3));
    [reflexivity | reflexivity | reflexivity | reflexivity | cbn; lia].
Defined.

(* ================================================================== *)
(** ** Pause *)

(** What Pause assigns on a running timer whose stored remaining time is a
    number, for a suggestion that is a number or absent. *)
Lemma pauseTimer_update_running (StringToNumber : string -> JsNumber) (now now' : Z)
    (suggestion : option Z) (room : Room) (s t : Z) :
  isRunning (timerState room) = true ->
  startedAt (timerState room) = Some s ->
  timeRemaining (timerState room) = Num t ->
  timerState (pauseTimer_update StringToNumber now now' (suggestionValue suggestion) room) =
  mkTimerState (mode (timerState room))
    (Num (pausedRemaining (effectiveSuggestion suggestion) t (elapsedSeconds now s)))
    false None (Some now') (cycleCount (timerState room)).
Proof.
  destruct room as [h [m tr r sa pa c] st]; cbn. intros -> -> ->.
  unfold pauseTimer_update, pausedRemaining, reconciled; cbn.
  destruct suggestion as [z | ]; [ | reflexivity].
  unfold effectiveSuggestion, suggestionValue, Js.or, truthy.
  destruct (Z.eqb z 0); reflexivity.
Qed.

Lemma pauseTimer_update_room (StringToNumber : string -> JsNumber) (now now' : Z)
    (v : JsValue) (room : Room) :
  pauseTimer_update StringToNumber now now' v room =
  mkRoom (host room) (timerState (pauseTimer_update StringToNumber now now' v room))
    (timerSettings room).
Proof. destruct room as [h ts st]; reflexivity. Qed.

(** On a running timer a suggestion of 0 is indistinguishable from no
    suggestion. *)
Lemma pauseTimer_update_zero (StringToNumber : string -> JsNumber) (now now' : Z)
    (room : Room) :
  isRunning (timerState room) = true ->
  is_Some (startedAt (timerState room)) ->
  pauseTimer_update StringToNumber now now' (JNumber (Num 0)) room =
  pauseTimer_update StringToNumber now now' JUndefined room.
Proof.
  destruct room as [h [m tr r sa pa c] st]; cbn. intros -> [s ->]. reflexivity.
Qed.

(** On a timer that is not running, Pause stores the suggestion floored at
    0, whatever the stored value is; with no suggestion that is NaN. *)
Lemma pauseTimer_update_stopped (StringToNumber : string -> JsNumber) (now now' : Z)
    (v : JsValue) (room : Room) :
  isRunning (timerState room) = false ->
  timerState (pauseTimer_update StringToNumber now now' v room) =
  mkTimerState (mode (timerState room)) (Math_max (Num 0) (ToNumber StringToNumber v))
    false None (Some now') (cycleCount (timerState room)).
Proof.
  destruct room as [h [m tr r sa pa c] st]; cbn. intros ->. reflexivity.
Qed.


(** C3, counterexample: the stored remaining time is 100, the timer was
    started 30 seconds ago and the client suggests 0.  The minimum of the
    suggestion and the reconciled value 70, floored at 0, is 0; Pause stores
    70. *)
Lemma pause_with_suggestion_zero_stores_reconciled :
  let room := sampleRoom focus 100 (Some 1000000) 0 in
  let w := sampleWorld room in
  let w' :=
    run (handlePauseTimer never never noNumber 1030000 1030000 "host-1" "room-1"
           (JNumber (Num 0))) w in
  elapsedSeconds 1030000 1000000 = 30 /\
  pausedRemaining (Some 0) 100 30 = 0 /\
  timeRemaining <$> persisted w' "room-1" = Some (Num 70) /\
  timeRemaining <$> persisted w' "room-1" <> Some (Num (pausedRemaining (Some 0) 100 30)).
Proof. cbn zeta. repeat split; [reflexivity .. | discriminate]. Qed.

(** C3, amended: Pause by the host on a running timer stores, and
    broadcasts, as remaining time the minimum of the client-suggested value
    (the stored remaining time if none was supplied or the suggestion is 0)
    and the reconciled remaining time max(0, stored - elapsed seconds),
    floored at 0; [isRunning] is cleared, [startedAt] is null and [pausedAt]
    is the time of the pause. *)
Theorem pause_running_stores_minimum
    (findRejects : string -> bool) (saveRejects : Room -> bool)
    (StringToNumber : string -> JsNumber) (now now' : Z) (userId roomId : string)
    (w : World) (room : Room) (s t : Z) (suggestion : option Z) :
  findRejects roomId = false ->
  db w !! roomId = Some room ->
  isUserHost room userId = true ->
  isRunning (timerState room) = true ->
  startedAt (timerState room) = Some s ->
  timeRemaining (timerState room) = Num t ->
  saveRejects (pauseTimer_update StringToNumber now now' (suggestionValue suggestion) room)
    = false ->
  let elapsed := (now - s) / 1000 in
  let remaining :=
    Z.max 0
      (Z.min
         (match suggestion with
          | Some c => if Z.eqb c 0 then t else c
          | None => t
          end)
         (Z.max 0 (t - elapsed))) in
  let t' :=
    mkTimerState (mode (timerState room)) (Num remaining) false None (Some now')
      (cycleCount (timerState room)) in
  run (handlePauseTimer findRejects saveRejects StringToNumber now now' userId roomId
         (suggestionValue suggestion)) w
  = committed roomId (mkRoom (host room) t' (timerSettings room)) "timer-paused"
      (PTimerState t') w
  /\ persisted
       (run (handlePauseTimer findRejects saveRejects StringToNumber now now' userId roomId
               (suggestionValue suggestion)) w) roomId = Some t'
  /\ (suggestion <> Some 0 -> remaining = pausedRemaining suggestion t elapsed).
Proof.
  intros Hfind Hroom Hhost Hrun Hstarted Hstored Hsave elapsed remaining t'.
  assert (Hstate :
    pauseTimer_update StringToNumber now now' (suggestionValue suggestion) room
    = mkRoom (host room) t' (timerSettings room)).
  { rewrite pauseTimer_update_room.
    rewrite (pauseTimer_update_running StringToNumber now now' suggestion room s t
               Hrun Hstarted Hstored).
    subst t' remaining elapsed.
    unfold pausedRemaining, reconciled, effectiveSuggestion, elapsedSeconds.
    destruct suggestion as [c | ]; [destruct (Z.eqb c 0) | ]; reflexivity. }
  assert (Hworld :
    run (handlePauseTimer findRejects saveRejects StringToNumber now now' userId roomId
           (suggestionValue suggestion)) w
    = committed roomId (mkRoom (host room) t' (timerSettings room)) "timer-paused"
        (PTimerState t') w).
  { rewrite handlePauseTimer_run, Hfind, Hroom, Hhost. cbn zeta.
    rewrite Hsave, Hstate. reflexivity. }
  split; [exact Hworld |].
  split; [rewrite Hworld; apply persisted_committed |].
  intros Hnz. subst remaining. unfold pausedRemaining, reconciled.
  destruct suggestion as [c | ]; [ | reflexivity].
  destruct (Z.eqb_spec c 0) as [-> | _]; [contradiction | reflexivity].
Qed.

(** The example of the claim: stored 100, started 30 seconds ago, 80
    suggested; Pause stores 70. *)
Lemma pause_running_stores_minimum_witness :
  let room := sampleRoom focus 100 (Some 1000000) 0 in
  let w := sampleWorld room in
  let t' := mkTimerState focus (Num 70) false None (Some 1030001) 0 in
  run (handlePauseTimer never never noNumber 1030000 1030001 "host-1" "room-1"
         (JNumber (Num 80))) w
  = committed "room-1" (mkRoom "host-1" t' None) "timer-paused" (PTimerState t') w
  /\ persisted
       (run (handlePauseTimer never never noNumber 1030000 1030001 "host-1" "room-1"
               (JNumber (Num 80))) w) "room-1" = Some t'
  /\ (Some 80 <> Some 0 -> 70 = pausedRemaining (Some 80) 100 30).
Proof.
  apply (pause_running_stores_minimum never never noNumber 1030000 1030001
           "host-1" "room-1" (sampleWorld (sampleRoom focus 100 (Some 1000000) 0))
           (sampleRoom focus 100 (Some 1000000) 0) 1000000 100 (Some 80));
    reflexivity.
Defined.

(** C10, counterexample: the stored remaining time is 100 and the timer
    was started 30 seconds ago, so the minimum of the stored and the
    reconciled value is 70; a client that suggests -1 makes Pause store
    exactly 0. *)
Lemma pause_with_negative_suggestion_stores_zero :
  let room := sampleRoom focus 100 (Some 1000000) 0 in
  let w := sampleWorld room in
  let w' :=
    run (handlePauseTimer never never noNumber 1030000 1030000 "host-1" "room-1"
           (JNumber (Num (-1)))) w in
  Z.min 100 (reconciled 100 (elapsedSeconds 1030000 1000000)) = 70 /\
  timeRemaining <$> persisted w' "room-1" = Some (Num 0).
Proof. cbn zeta. split; reflexivity. Qed.

(** C10, amended: on a running timer a client-suggested remaining time of
    0 is treated as if it were absent: Pause does exactly what it does
    without a suggestion, and the remaining time it stores is the minimum of
    the stored and the reconciled remaining time rather than 0.  So a client
    cannot force the remaining time to 0 by suggesting 0; a negative
    suggestion, however, is clamped to 0. *)
Theorem pause_suggestion_zero_is_absent
    (findRejects : string -> bool) (saveRejects : Room -> bool)
    (StringToNumber : string -> JsNumber) (now now' : Z) (userId roomId : string)
    (w : World) (room : Room) (s t : Z) :
  findRejects roomId = false ->
  db w !! roomId = Some room ->
  isUserHost room userId = true ->
  isRunning (timerState room) = true ->
  startedAt (timerState room) = Some s ->
  timeRemaining (timerState room) = Num t ->
  0 <= t ->
  saveRejects (pauseTimer_update StringToNumber now now' (JNumber (Num 0)) room) = false ->
  let w0 :=
    run (handlePauseTimer findRejects saveRejects StringToNumber now now' userId roomId
           (JNumber (Num 0))) w in
  w0 = run (handlePauseTimer findRejects saveRejects StringToNumber now now' userId roomId
              JUndefined) w
  /\ timeRemaining <$> persisted w0 roomId
     = Some (Num (Z.min t (Z.max 0 (t - (now - s) / 1000))))
  /\ (forall c : Z, c < 0 ->
        timeRemaining
          (timerState (pauseTimer_update StringToNumber now now' (JNumber (Num c)) room))
        = Num 0).
Proof.
  intros Hfind Hroom Hhost Hrun Hstarted Hstored Ht Hsave w0.
  assert (Hsome : is_Some (startedAt (timerState room))) by (rewrite Hstarted; eauto).
  split; [ | split].
  - subst w0. rewrite !handlePauseTimer_run, Hfind, Hroom, Hhost. cbn zeta.
    rewrite (pauseTimer_update_zero StringToNumber now now' room Hrun Hsome). reflexivity.
  - subst w0. rewrite handlePauseTimer_run, Hfind, Hroom, Hhost. cbn zeta.
    rewrite Hsave, persisted_committed.
    pose proof (pauseTimer_update_running StringToNumber now now' (Some 0) room s t
                  Hrun Hstarted Hstored) as Hstate.
    cbn [suggestionValue] in Hstate. rewrite Hstate.
    cbn. unfold pausedRemaining, reconciled, elapsedSeconds; cbn.
    do 2 f_equal. lia.
  - intros c Hc.
    pose proof (pauseTimer_update_running StringToNumber now now' (Some c) room s t
                  Hrun Hstarted Hstored) as Hstate.
    cbn [suggestionValue] in Hstate. rewrite Hstate.
    cbn. unfold pausedRemaining, reconciled, effectiveSuggestion.
    destruct (Z.eqb_spec c 0) as [-> | _]; [lia |]. cbn. f_equal. lia.
Qed.

Lemma pause_suggestion_zero_is_absent_witness :
  let room := sampleRoom focus 100 (Some 1000000) 0 in
  let w := sampleWorld room in
  let w0 :=
    run (handlePauseTimer never never noNumber 1030000 1030001 "host-1" "room-1"
           (JNumber (Num 0))) w in
  w0 = run (handlePauseTimer never never noNumber 1030000 1030001 "host-1" "room-1"
              JUndefined) w
  /\ timeRemaining <$> persisted w0 "room-1"
     = Some (Num (Z.min 100 (Z.max 0 (100 - (1030000 - 1000000) / 1000))))
  /\ (forall c : Z, c < 0 ->
        timeRemaining
          (timerState (pauseTimer_update noNumber 1030000 1030001 (JNumber (Num c)) room))
        = Num 0).
Proof.
  apply (pause_suggestion_zero_is_absent never never noNumber 1030000 1030001
           "host-1" "room-1" (sampleWorld (sampleRoom focus 100 (Some 1000000) 0))
           (sampleRoom focus 100 (Some 1000000) 0) 1000000 100);
    first [reflexivity | lia].
Defined.

(* ================================================================== *)
(** ** The remaining time is a non-negative whole number, with one gap *)




(** Whatever the store does, Pause on a stopped timer with no suggestion
    cannot complete with a valid remaining time: either the save is rejected
    and the requester gets "Failed to pause timer", or NaN is stored and
    broadcast. *)
Lemma pause_stopped_without_suggestion_outcome
    (findRejects : string -> bool) (saveRejects : Room -> bool)
    (StringToNumber : string -> JsNumber) (now now' : Z) (userId roomId : string)
    (w : World) (room : Room) :
  findRejects roomId = false ->
  db w !! roomId = Some room ->
  isUserHost room userId = true ->
  isRunning (timerState room) = false ->
  let w' :=
    run (handlePauseTimer findRejects saveRejects StringToNumber now now' userId roomId
           JUndefined) w in
  let t' :=
    mkTimerState (mode (timerState room)) NaN false None (Some now')
      (cycleCount (timerState room)) in
  w' = refused "Failed to pause timer" w \/
  (persisted w' roomId = Some t' /\
   emitted w w' = [ToRoom roomId "timer-paused" (PTimerState t')]).
Proof.
  intros Hfind Hroom Hhost Hstopped w' t'. subst w'.
  rewrite handlePauseTimer_run, Hfind, Hroom, Hhost. cbn zeta.
  destruct (saveRejects _); [left; reflexivity | right].
  rewrite persisted_committed, emitted_committed.
  rewrite (pauseTimer_update_stopped StringToNumber now now' JUndefined room Hstopped).
  split; reflexivity.
Qed.

(* ================================================================== *)
(** ** [isRunning] and [startedAt] *)

Lemma startTimer_update_timerState (now : Z) (room : Room) :
  timerState (startTimer_update now room) =
  mkTimerState (mode (timerState room)) (timeRemaining (timerState room)) true (Some now)
    (pausedAt (timerState room)) (cycleCount (timerState room)).
Proof. reflexivity. Qed.

Lemma pauseTimer_update_stops (StringToNumber : string -> JsNumber) (now now' : Z)
    (v : JsValue) (room : Room) :
  isRunning (timerState (pauseTimer_update StringToNumber now now' v room)) = false /\
  startedAt (timerState (pauseTimer_update StringToNumber now now' v room)) = None.
Proof. split; reflexivity. Qed.

Lemma resetTimer_update_stops (room : Room) :
  isRunning (timerState (resetTimer_update room)) = false /\
  startedAt (timerState (resetTimer_update room)) = None.
Proof. split; reflexivity. Qed.

Lemma changeTimerMode_update_stops (m : Mode) (room : Room) :
  isRunning (timerState (changeTimerMode_update m room)) = false /\
  startedAt (timerState (changeTimerMode_update m room)) = None.
Proof. rewrite changeTimerMode_update_timerState. split; reflexivity. Qed.

Lemma timerCompleted_update_stops (room : Room) :
  isRunning (timerState (snd (timerCompleted_update room))) = false /\
  startedAt (timerState (snd (timerCompleted_update room))) = None.
Proof.
  unfold timerCompleted_update; cbn.
  destruct (bool_decide (mode (timerState room) = focus)); split; reflexivity.
Qed.

Lemma coherent_running (t : TimerState) (now : Z) :
  isRunning t = true -> startedAt t = Some now -> coherent t.
Proof. intros Hr Hs. unfold coherent. rewrite Hr, Hs. split; [discriminate | reflexivity]. Qed.

Lemma coherent_stopped (t : TimerState) :
  isRunning t = false -> startedAt t = None -> coherent t.
Proof.
  intros Hr Hs. unfold coherent. rewrite Hr, Hs.
  split; [discriminate | intros H; contradiction H; reflexivity].
Qed.

(** Each of the five operations completes when the room exists, the
    requester is its host, the requested mode (for Change Mode) is valid and
    the store accepts the save. *)
Lemma handle_completes
    (findRejects : string -> bool) (saveRejects : Room -> bool)
    (StringToNumber : string -> JsNumber) (now now' : Z) (userId roomId : string)
    (request : Request) (w : World) (room : Room) :
  findRejects roomId = false ->
  db w !! roomId = Some room ->
  isUserHost room userId = true ->
  (forall v : JsValue, request = ChangeTimerMode v -> is_Some (asMode v)) ->
  (forall r : Room, saveRejects r = false) ->
  exists (event : string) (p : Payload),
    emitted w
      (run (handle findRejects saveRejects StringToNumber now now' userId roomId request) w)
    = [ToRoom roomId event p].
Proof.
  intros Hfind Hroom Hhost Hvalid Hsave.
  destruct request as [ | v | | v | ]; unfold handle;
    [ rewrite handleStartTimer_run
    | rewrite handlePauseTimer_run
    | rewrite handleResetTimer_run
    | rewrite handleChangeTimerMode_run
    | rewrite handleTimerCompleted_run ];
    rewrite Hfind, Hroom, Hhost;
    try (destruct (Hvalid v eq_refl) as [m ->]);
    cbn zeta; rewrite Hsave, emitted_committed; eexists _, _; reflexivity.
Qed.

(** Conversely, whenever one of the five operations sends its event to
    the room, the timer state it has stored is the one the event carries,
    with [isRunning] and [startedAt] as its operation sets them. *)
Lemma broadcast_timer_state_is_coherent
    (findRejects : string -> bool) (saveRejects : Room -> bool)
    (StringToNumber : string -> JsNumber) (now now' : Z) (userId roomId : string)
    (request : Request) (w : World) (event : string) (p : Payload) :
  emitted w
    (run (handle findRejects saveRejects StringToNumber now now' userId roomId request) w)
  = [ToRoom roomId event p] ->
  exists t' : TimerState,
    persisted
      (run (handle findRejects saveRejects StringToNumber now now' userId roomId request) w)
      roomId = Some t' /\
    payloadTimerState p = Some t' /\
    match request with
    | StartTimer => isRunning t' = true /\ startedAt t' = Some now
    | _ => isRunning t' = false /\ startedAt t' = None
    end /\
    coherent t'.
Proof.
  destruct request as [ | v | | v | ]; unfold handle;
    [ rewrite handleStartTimer_run
    | rewrite handlePauseTimer_run
    | rewrite handleResetTimer_run
    | rewrite handleChangeTimerMode_run
    | rewrite handleTimerCompleted_run ];
    (destruct (findRejects roomId);
       [rewrite emitted_refused; discriminate |]);
    (destruct (db w !! roomId) as [room | ];
       [ | rewrite emitted_refused; discriminate]);
    (destruct (isUserHost room userId);
       [ | rewrite emitted_refused; discriminate]);
    try (destruct (asMode v) as [m | ];
           [ | rewrite emitted_refused; discriminate]);
    cbn zeta;
    (destruct (saveRejects _);
       [rewrite emitted_refused; discriminate |]);
    rewrite emitted_committed, persisted_committed;
    intros [= <- <-]; eexists; (split; [reflexivity |]); (split; [reflexivity |]).
  - rewrite startTimer_update_timerState.
    split; [split; reflexivity | apply (coherent_running _ now); reflexivity].
  - destruct (pauseTimer_update_stops StringToNumber now now' v room) as [Hr Hs].
    split; [split; assumption | apply coherent_stopped; assumption].
  - destruct (resetTimer_update_stops room) as [Hr Hs].
    split; [split; assumption | apply coherent_stopped; assumption].
  - destruct (changeTimerMode_update_stops m room) as [Hr Hs].
    split; [split; assumption | apply coherent_stopped; assumption].
  - destruct (timerCompleted_update_stops room) as [Hr Hs].
    split; [split; assumption | apply coherent_stopped; assumption].
Qed.

(* ================================================================== *)
(** ** The guards: host only, valid modes only *)

Lemma refused_quiet (message : string) (w : World) :
  db (refused message w) = db w /\
  (forall roomId : string, persisted (refused message w) roomId = persisted w roomId) /\
  emitted w (refused message w) = [ToSocket "error" (PError message)] /\
  existsb isBroadcast (emitted w (refused message w)) = false.
Proof.
  split; [reflexivity |]. split; [reflexivity |].
  rewrite emitted_refused. split; reflexivity.
Qed.

(** C6: for each of the five operations, when the requester is not the
    host of the room, the store is left as it was (so is the timer state of
    every room), nothing is sent to the room, and the one event sent is the
    error "Only host can control timer", to the requester. *)
Theorem non_host_is_refused
    (findRejects : string -> bool) (saveRejects : Room -> bool)
    (StringToNumber : string -> JsNumber) (now now' : Z) (userId roomId : string)
    (request : Request) (w : World) (room : Room) :
  findRejects roomId = false ->
  db w !! roomId = Some room ->
  isUserHost room userId = false ->
  let w' :=
    run (handle findRejects saveRejects StringToNumber now now' userId roomId request) w in
  db w' = db w /\
  (forall other : string, persisted w' other = persisted w other) /\
  emitted w w' = [ToSocket "error" (PError "Only host can control timer")] /\
  existsb isBroadcast (emitted w w') = false.
Proof.
  intros Hfind Hroom Hhost w'.
  assert (Hw : w' = refused "Only host can control timer" w).
  { subst w'. destruct request as [ | v | | v | ]; unfold handle;
      [ rewrite handleStartTimer_run
      | rewrite handlePauseTimer_run
      | rewrite handleResetTimer_run
      | rewrite handleChangeTimerMode_run
      | rewrite handleTimerCompleted_run ];
      rewrite Hfind, Hroom, Hhost; reflexivity. }
  rewrite Hw. apply refused_quiet.
Qed.

Lemma non_host_is_refused_witness :
  let w := sampleWorld (sampleRoom focus 1500 None 0) in
  let w' :=
    run (handle never never noNumber 7000 7001 "guest-2" "room-1" (PauseTimer (JNumber (Num 5))))
      w in
  db w' = db w /\
  (forall other : string, persisted w' other = persisted w other) /\
  emitted w w' = [ToSocket "error" (PError "Only host can control timer")] /\
  existsb isBroadcast (emitted w w') = false.
Proof.
  apply (non_host_is_refused never never noNumber 7000 7001 "guest-2" "room-1"
           (PauseTimer (JNumber (Num 5))) (sampleWorld (sampleRoom focus 1500 None 0))
           (sampleRoom focus 1500 None 0));
    reflexivity.
Defined.

(** C7: when the host asks Change Mode for a mode that is none of "focus",
    "shortBreak" and "longBreak", the one event sent is the error
    "Invalid timer mode", to the requester; nothing is sent to the room, and
    the store, with every field of the timer state of the room, is left as
    it was. *)
Theorem invalid_mode_is_refused
    (findRejects : string -> bool) (saveRejects : Room -> bool)
    (userId roomId : string) (requested : JsValue) (w : World) (room : Room) :
  findRejects roomId = false ->
  db w !! roomId = Some room ->
  isUserHost room userId = true ->
  requested <> JString "focus" ->
  requested <> JString "shortBreak" ->
  requested <> JString "longBreak" ->
  let w' := run (handleChangeTimerMode findRejects saveRejects userId roomId requested) w in
  includes validModes requested = false /\
  emitted w w' = [ToSocket "error" (PError "Invalid timer mode")] /\
  existsb isBroadcast (emitted w w') = false /\
  db w' = db w /\
  persisted w' roomId = Some (timerState room).
Proof.
  intros Hfind Hroom Hhost Hf Hs Hl w'.
  pose proof (asMode_None requested Hf Hs Hl) as Hmode.
  assert (Hw : w' = refused "Invalid timer mode" w).
  { subst w'. rewrite handleChangeTimerMode_run, Hfind, Hroom, Hhost, Hmode. reflexivity. }
  split.
  { rewrite asMode_includes, Hmode. apply bool_decide_eq_false_2. intros [m Hm].
    discriminate Hm. }
  rewrite Hw.
  destruct (refused_quiet "Invalid timer mode" w) as (Hdb & Hpersisted & Hemitted & Hquiet).
  split; [exact Hemitted |]. split; [exact Hquiet |]. split; [exact Hdb |].
  rewrite Hpersisted. unfold persisted. rewrite Hroom. reflexivity.
Qed.

Lemma invalid_mode_is_refused_witness :
  let room := sampleRoom focus 1200 (Some 1000000) 2 in
  let w := sampleWorld room in
  let w' := run (handleChangeTimerMode never never "host-1" "room-1" (JString "nap")) w in
  includes validModes (JString "nap") = false /\
  emitted w w' = [ToSocket "error" (PError "Invalid timer mode")] /\
  existsb isBroadcast (emitted w w') = false /\
  db w' = db w /\
  persisted w' "room-1" = Some (timerState room).
Proof.
  apply (invalid_mode_is_refused never never "host-1" "room-1" (JString "nap")
           (sampleWorld (sampleRoom focus 1200 (Some 1000000) 2))
           (sampleRoom focus 1200 (Some 1000000) 2));
    first [reflexivity | discriminate].
Defined.

(* ================================================================== *)
(** ** Start *)

(** C8: Start by the host on an existing room stores, and broadcasts, the
    state with [isRunning] true and [startedAt] now, and with the mode, the
    remaining time, [pausedAt] and the cycle count it had.  This is so on a
    timer that is already running too: the remaining time is not reduced by
    the time elapsed since the previous [startedAt], and reconciliation of
    the new state counts the elapsed seconds from the new [startedAt]
    only. *)
Theorem start_keeps_remaining_time
    (findRejects : string -> bool) (saveRejects : Room -> bool)
    (now : Z) (userId roomId : string) (w : World) (room : Room) :
  findRejects roomId = false ->
  db w !! roomId = Some room ->
  isUserHost room userId = true ->
  saveRejects (startTimer_update now room) = false ->
  let t := timerState room in
  let w' := run (handleStartTimer findRejects saveRejects now userId roomId) w in
  exists t' : TimerState,
    w' = committed roomId (mkRoom (host room) t' (timerSettings room)) "timer-started"
           (PTimerState t') w /\
    persisted w' roomId = Some t' /\
    isRunning t' = true /\
    startedAt t' = Some now /\
    timeRemaining t' = timeRemaining t /\
    mode t' = mode t /\
    pausedAt t' = pausedAt t /\
    cycleCount t' = cycleCount t /\
    (forall later : Z,
       timeRemaining (calculateCurrentTimerState later t') =
       Math_max (Num 0) (sub (timeRemaining t) (Num ((later - now) / 1000)))).
Proof.
  intros Hfind Hroom Hhost Hsave t w'.
  exists (timerState (startTimer_update now room)).
  assert (Hw : w' = committed roomId (startTimer_update now room) "timer-started"
                      (PTimerState (timerState (startTimer_update now room))) w).
  { subst w'. rewrite handleStartTimer_run, Hfind, Hroom, Hhost. cbn zeta.
    rewrite Hsave. reflexivity. }
  split; [exact Hw |].
  split; [rewrite Hw; apply persisted_committed |].
  repeat split.
Qed.

(** A timer with 100 seconds left that has been running for 30 seconds is
    started again. *)
Lemma start_keeps_remaining_time_witness :
  let room := sampleRoom focus 100 (Some 1000000) 1 in
  let t := timerState room in
  let w := sampleWorld room in
  let w' := run (handleStartTimer never never 1030000 "host-1" "room-1") w in
  exists t' : TimerState,
    w' = committed "room-1" (mkRoom "host-1" t' None) "timer-started" (PTimerState t') w /\
    persisted w' "room-1" = Some t' /\
    isRunning t' = true /\
    startedAt t' = Some 1030000 /\
    timeRemaining t' = Num 100 /\
    mode t' = focus /\
    pausedAt t' = None /\
    cycleCount t' = 1 /\
    (forall later : Z,
       timeRemaining (calculateCurrentTimerState later t') =
       Math_max (Num 0) (sub (Num 100) (Num ((later - 1030000) / 1000)))).
Proof.
  apply (start_keeps_remaining_time never never 1030000 "host-1" "room-1"
           (sampleWorld (sampleRoom focus 100 (Some 1000000) 1))
           (sampleRoom focus 100 (Some 1000000) 1));
    reflexivity.
Defined.

(* ================================================================== *)
(** ** Reconciliation *)

Lemma calculateCurrentTimerState_running (now : Z) (t : TimerState) (s : Z) :
  isRunning t = true ->
  startedAt t = Some s ->
  calculateCurrentTimerState now t =
  mkTimerState (mode t)
    (Math_max (Num 0) (sub (timeRemaining t) (Num (elapsedSeconds now s))))
    true (Some s) (pausedAt t) (cycleCount t).
Proof.
  intros Hr Hs. unfold calculateCurrentTimerState. rewrite Hr, Hs. reflexivity.
Qed.

Lemma calculateCurrentTimerState_stopped (now : Z) (t : TimerState) :
  isRunning t = false -> calculateCurrentTimerState now t = t.
Proof. intros Hr. unfold calculateCurrentTimerState. rewrite Hr. reflexivity. Qed.

Lemma elapsedSeconds_nonneg (now s : Z) : s <= now -> 0 <= elapsedSeconds now s.
Proof. intros H. unfold elapsedSeconds. apply Z.div_pos; lia. Qed.

(** C9, counterexample: a running timer with 100 seconds stored is
    observed 30 seconds after its start.  Reconciliation gives 70; applied
    to its own result at the same instant it gives 40, because the result is
    still running with the same [startedAt]. *)
Lemma reconciliation_applied_twice_subtracts_twice :
  let t := mkTimerState focus (Num 100) true (Some 1000000) None 0 in
  let now := 1030000 in
  timeRemaining (calculateCurrentTimerState now t) = Num 70 /\
  timeRemaining (calculateCurrentTimerState now (calculateCurrentTimerState now t)) = Num 40 /\
  calculateCurrentTimerState now (calculateCurrentTimerState now t)
    <> calculateCurrentTimerState now t.
Proof. cbn zeta. repeat split; [reflexivity .. | discriminate]. Qed.

(** C9, amended: for a running timer with a non-null [startedAt] and a
    stored number of seconds, observed at an instant now not before
    [startedAt], reconciliation returns the same state with the remaining
    time replaced by max(0, timeRemaining - floor((now - startedAt) / 1000)),
    which is never negative; a timer that is not running is returned
    unchanged.  The result is a function of the state and of now alone.
    Applied to its own result at the same now it subtracts the elapsed
    seconds once more: it returns that result again exactly when no whole
    second has elapsed or the remaining time has already reached 0. *)
Theorem reconciliation_contract (now : Z) (t : TimerState) (s z : Z) :
  isRunning t = true ->
  startedAt t = Some s ->
  timeRemaining t = Num z ->
  s <= now ->
  let elapsed := (now - s) / 1000 in
  let t1 := calculateCurrentTimerState now t in
  t1 = mkTimerState (mode t) (Num (Z.max 0 (z - elapsed))) true (Some s) (pausedAt t)
         (cycleCount t) /\
  nonNegative (timeRemaining t1) /\
  (forall u : TimerState, isRunning u = false -> calculateCurrentTimerState now u = u) /\
  timeRemaining (calculateCurrentTimerState now t1) = Num (Z.max 0 (z - 2 * elapsed)) /\
  (calculateCurrentTimerState now t1 = t1 <-> elapsed = 0 \/ z <= elapsed).
Proof.
  intros Hr Hs Hz Hnow elapsed t1.
  pose proof (elapsedSeconds_nonneg now s Hnow) as He.
  assert (H1 : t1 = mkTimerState (mode t) (Num (Z.max 0 (z - elapsed))) true (Some s)
                      (pausedAt t) (cycleCount t)).
  { subst t1. rewrite (calculateCurrentTimerState_running now t s Hr Hs), Hz. reflexivity. }
  assert (H2 : calculateCurrentTimerState now t1 =
               mkTimerState (mode t) (Num (Z.max 0 (Z.max 0 (z - elapsed) - elapsed))) true
                 (Some s) (pausedAt t) (cycleCount t)).
  { rewrite H1. reflexivity. }
  fold (elapsedSeconds now s) in elapsed. fold elapsed in He.
  split; [exact H1 |].
  split; [rewrite H1; eexists; split; [reflexivity | lia] |].
  split; [intros u Hu; apply calculateCurrentTimerState_stopped; exact Hu |].
  split; [rewrite H2; cbn; f_equal; lia |].
  rewrite H2, H1. split.
  - intros [= Heq]. lia.
  - intros Hcases. do 2 f_equal. lia.
Qed.

Lemma reconciliation_contract_witness :
  let t := mkTimerState focus (Num 100) true (Some 1000000) None 0 in
  let t1 := calculateCurrentTimerState 1030000 t in
  t1 = mkTimerState focus (Num (Z.max 0 (100 - 30))) true (Some 1000000) None 0 /\
  nonNegative (timeRemaining t1) /\
  (forall u : TimerState, isRunning u = false -> calculateCurrentTimerState 1030000 u = u) /\
  timeRemaining (calculateCurrentTimerState 1030000 t1) = Num (Z.max 0 (100 - 2 * 30)) /\
  (calculateCurrentTimerState 1030000 t1 = t1 <-> 30 = 0 \/ 100 <= 30).
Proof.
  apply (reconciliation_contract 1030000
           (mkTimerState focus (Num 100) true (Some 1000000) None 0) 1000000 100);
    first [reflexivity | lia].
Defined.

(* ================================================================== *)
(** ** Every request: one answer, one room *)

(** A request either is refused, with an error to the requester, or
    commits the document of [updateOf] for the room it names, on behalf of
    its host. *)
Lemma handle_outcome
    (findRejects : string -> bool) (saveRejects : Room -> bool)
    (StringToNumber : string -> JsNumber) (now now' : Z) (userId roomId : string)
    (request : Request) (w : World) :
  (exists message : string,
     run (handle findRejects saveRejects StringToNumber now now' userId roomId request) w
     = refused message w) \/
  (exists (room room' : Room) (event : string) (p : Payload),
     findRejects roomId = false /\
     db w !! roomId = Some room /\
     isUserHost room userId = true /\
     updateOf StringToNumber now now' request room = Some room' /\
     saveRejects room' = false /\
     run (handle findRejects saveRejects StringToNumber now now' userId roomId request) w
     = committed roomId room' event p w).
Proof.
  destruct request as [ | v | | v | ]; unfold handle;
    [ rewrite handleStartTimer_run
    | rewrite handlePauseTimer_run
    | rewrite handleResetTimer_run
    | rewrite handleChangeTimerMode_run
    | rewrite handleTimerCompleted_run ];
    (destruct (findRejects roomId) eqn:Hfind; [left; eexists; reflexivity |]);
    (destruct (db w !! roomId) as [room | ] eqn:Hroom; [ | left; eexists; reflexivity]);
    (destruct (isUserHost room userId) eqn:Hhost; [ | left; eexists; reflexivity]);
    try (destruct (asMode v) as [m | ] eqn:Hmode; [ | left; eexists; reflexivity]);
    cbn zeta;
    (destruct (saveRejects _) eqn:Hsave; [left; eexists; reflexivity |]);
    right; eexists room, _, _, _; cbn [updateOf]; try rewrite Hmode; cbn [fmap option_fmap option_map];
    repeat split; first [eassumption | reflexivity].
Qed.

Lemma updateOf_frame (StringToNumber : string -> JsNumber) (now now' : Z)
    (request : Request) (room room' : Room) :
  updateOf StringToNumber now now' request room = Some room' ->
  host room' = host room /\ timerSettings room' = timerSettings room.
Proof.
  destruct request as [ | v | | v | ]; cbn.
  - intros [= <-]. split; reflexivity.
  - intros [= <-]. split; reflexivity.
  - intros [= <-]. split; reflexivity.
  - destruct (asMode v) as [m | ]; cbn; [ | discriminate].
    intros [= <-]. unfold changeTimerMode_update; cbn. destruct m; split; reflexivity.
  - intros [= <-]. unfold timerCompleted_update; cbn.
    destruct (bool_decide _); split; reflexivity.
Qed.

(** X1: whatever the request, the requester, the room named and the
    behaviour of the store, a timer handler adds exactly one event to those
    already sent and removes none: every request gets one answer, either an
    error to the requester or one broadcast to the room. *)
Theorem every_request_gets_one_event
    (findRejects : string -> bool) (saveRejects : Room -> bool)
    (StringToNumber : string -> JsNumber) (now now' : Z) (userId roomId : string)
    (request : Request) (w : World) :
  exists e : Emit,
    outbox (run (handle findRejects saveRejects StringToNumber now now' userId roomId request) w)
    = (outbox w ++ [e])%list /\
    match e with
    | ToSocket event (PError _) => event = "error"
    | ToSocket _ _ => False
    | ToRoom target _ p => target = roomId /\ is_Some (payloadTimerState p)
    end.
Proof.
  destruct request as [ | v | | v | ]; unfold handle;
    [ rewrite handleStartTimer_run
    | rewrite handlePauseTimer_run
    | rewrite handleResetTimer_run
    | rewrite handleChangeTimerMode_run
    | rewrite handleTimerCompleted_run ];
    (destruct (findRejects roomId); [eexists; split; [reflexivity | reflexivity] |]);
    (destruct (db w !! roomId) as [room | ]; [ | eexists; split; [reflexivity | reflexivity]]);
    (destruct (isUserHost room userId); [ | eexists; split; [reflexivity | reflexivity]]);
    try (destruct (asMode v) as [m | ]; [ | eexists; split; [reflexivity | reflexivity]]);
    cbn zeta;
    (destruct (saveRejects _); [eexists; split; [reflexivity | reflexivity] |]);
    eexists; (split; [reflexivity |]); cbn; split; eauto.
Qed.

(** X2: a timer request touches at most the room it names: every other
    room of the store is as it was, no room is created or removed, and the
    host and the settings of the room named are never changed. *)
Theorem request_touches_one_timer
    (findRejects : string -> bool) (saveRejects : Room -> bool)
    (StringToNumber : string -> JsNumber) (now now' : Z) (userId roomId : string)
    (request : Request) (w : World) (other : string) :
  let w' :=
    run (handle findRejects saveRejects StringToNumber now now' userId roomId request) w in
  (other <> roomId -> db w' !! other = db w !! other) /\
  (db w !! other = None <-> db w' !! other = None) /\
  (forall room room' : Room,
     db w !! other = Some room -> db w' !! other = Some room' ->
     host room' = host room /\ timerSettings room' = timerSettings room).
Proof.
  intros w'. subst w'.
  destruct (handle_outcome findRejects saveRejects StringToNumber now now' userId roomId
              request w)
    as [[message ->] | (room & room' & event & p & _ & Hroom & _ & Hupd & _ & ->)].
  - split; [reflexivity |]. split; [reflexivity |].
    cbn. intros r r' Hr Hr'. rewrite Hr in Hr'. injection Hr' as <-. split; reflexivity.
  - unfold committed; cbn.
    destruct (decide (other = roomId)) as [-> | Hne].
    + split; [intros H; contradiction |].
      rewrite lookup_insert_eq, Hroom.
      split; [split; discriminate |].
      intros r r' [= <-] [= <-]. exact (updateOf_frame _ _ _ _ _ _ Hupd).
    + rewrite lookup_insert_ne by (intros H; apply Hne; symmetry; exact H).
      split; [reflexivity |]. split; [reflexivity |].
      intros r r' Hr Hr'. rewrite Hr in Hr'. injection Hr' as <-. split; reflexivity.
Qed.

(** X3: when the store holds no room for the id, each of the five
    handlers answers the requester "Room not found", whoever asks and
    whatever the payload; nothing is stored and nothing is sent to a room. *)
Theorem missing_room_is_refused
    (findRejects : string -> bool) (saveRejects : Room -> bool)
    (StringToNumber : string -> JsNumber) (now now' : Z) (userId roomId : string)
    (request : Request) (w : World) :
  findRejects roomId = false ->
  db w !! roomId = None ->
  let w' :=
    run (handle findRejects saveRejects StringToNumber now now' userId roomId request) w in
  db w' = db w /\
  emitted w w' = [ToSocket "error" (PError "Room not found")].
Proof.
  intros Hfind Hroom w'.
  assert (Hw : w' = refused "Room not found" w).
  { subst w'. destruct request as [ | v | | v | ]; unfold handle;
      [ rewrite handleStartTimer_run
      | rewrite handlePauseTimer_run
      | rewrite handleResetTimer_run
      | rewrite handleChangeTimerMode_run
      | rewrite handleTimerCompleted_run ];
      rewrite Hfind, Hroom; reflexivity. }
  rewrite Hw. split; [reflexivity | apply emitted_refused].
Qed.

Lemma missing_room_is_refused_witness :
  let w := sampleWorld (sampleRoom focus 1500 None 0) in
  let w' :=
    run (handle never never noNumber 7000 7001 "host-1" "room-9"
           (ChangeTimerMode (JString "nap"))) w in
  db w' = db w /\
  emitted w w' = [ToSocket "error" (PError "Room not found")].
Proof.
  apply (missing_room_is_refused never never noNumber 7000 7001 "host-1" "room-9"
           (ChangeTimerMode (JString "nap")) (sampleWorld (sampleRoom focus 1500 None 0)));
    reflexivity.
Defined.

(** X4: when the store rejects the lookup, or rejects the save of the
    document a valid request of the host has produced, the handler answers
    the requester with the failure message of its operation; the store is
    exactly as it was, so none of the assignments made before the save is
    kept, and nothing is sent to the room. *)
Theorem store_failure_keeps_state
    (findRejects : string -> bool) (saveRejects : Room -> bool)
    (StringToNumber : string -> JsNumber) (now now' : Z) (userId roomId : string)
    (request : Request) (w : World) :
  findRejects roomId = true \/
  (exists room room' : Room,
     db w !! roomId = Some room /\
     isUserHost room userId = true /\
     updateOf StringToNumber now now' request room = Some room' /\
     saveRejects room' = true) ->
  let w' :=
    run (handle findRejects saveRejects StringToNumber now now' userId roomId request) w in
  db w' = db w /\
  emitted w w' = [ToSocket "error" (PError (failureMessage request))].
Proof.
  intros Hfail w'.
  assert (Hw : w' = refused (failureMessage request) w).
  { subst w'.
    destruct request as [ | v | | v | ]; unfold handle;
      [ rewrite handleStartTimer_run
      | rewrite handlePauseTimer_run
      | rewrite handleResetTimer_run
      | rewrite handleChangeTimerMode_run
      | rewrite handleTimerCompleted_run ];
      (destruct (findRejects roomId) eqn:Hfind; [reflexivity |]);
      (destruct Hfail as [Hf | (room & room' & Hroom & Hhost & Hupd & Hsave)];
         [discriminate Hf |]);
      rewrite Hroom, Hhost; cbn in Hupd;
      try (destruct (asMode v) as [m | ]; cbn in Hupd; [ | discriminate Hupd]);
      injection Hupd as Hupd; cbn zeta; rewrite Hupd, Hsave; reflexivity. }
  rewrite Hw. split; [reflexivity | apply emitted_refused].
Qed.

Lemma store_failure_keeps_state_witness :
  let w := sampleWorld (sampleRoom focus 1500 None 0) in
  let w' :=
    run (handle never (fun _ => true) noNumber 7000 7001 "host-1" "room-1" StartTimer) w in
  db w' = db w /\
  emitted w w' = [ToSocket "error" (PError "Failed to start timer")].
Proof.
  apply (store_failure_keeps_state never (fun _ => true) noNumber 7000 7001 "host-1"
           "room-1" StartTimer (sampleWorld (sampleRoom focus 1500 None 0))).
  right. exists (sampleRoom focus 1500 None 0), (startTimer_update 7000 (sampleRoom focus 1500 None 0)).
  repeat split.
Defined.

(* ================================================================== *)
(** ** What a sequence of requests keeps *)

Lemma updateOf_cycleCount (StringToNumber : string -> JsNumber) (now now' : Z)
    (request : Request) (room room' : Room) :
  updateOf StringToNumber now now' request room = Some room' ->
  cycleCount (timerState room') = cycleCount (timerState room) \/
  (cycleCount (timerState room') = cycleCount (timerState room) + 1 /\
   request = TimerCompleted /\ mode (timerState room) = focus).
Proof.
  destruct request as [ | v | | v | ]; cbn.
  - intros [= <-]. left; reflexivity.
  - intros [= <-]. left; reflexivity.
  - intros [= <-]. left; reflexivity.
  - destruct (asMode v) as [m | ]; cbn; [ | discriminate].
    intros [= <-]. left. apply changeTimerMode_update_cycleCount.
  - intros [= <-].
    destruct (decide (mode (timerState room) = focus)) as [Hm | Hm].
    + rewrite (timerCompleted_update_focus room Hm). right. repeat split. exact Hm.
    + rewrite (timerCompleted_update_break room Hm). left. reflexivity.
Qed.

Lemma updateOf_mode (StringToNumber : string -> JsNumber) (now now' : Z)
    (request : Request) (room room' : Room) :
  updateOf StringToNumber now now' request room = Some room' ->
  mode (timerState room') = mode (timerState room) \/
  request = ChangeTimerMode (JString (modeName (mode (timerState room')))).
Proof.
  destruct request as [ | v | | v | ]; cbn.
  - intros [= <-]. left; reflexivity.
  - intros [= <-]. left; reflexivity.
  - intros [= <-]. left; reflexivity.
  - destruct (asMode v) as [m | ] eqn:Hm; cbn; [ | discriminate].
    intros [= <-]. right. rewrite changeTimerMode_update_timerState. cbn.
    rewrite (asMode_Some v m Hm). reflexivity.
  - intros [= <-]. left.
    destruct (decide (mode (timerState room) = focus)) as [Hm | Hm].
    + rewrite (timerCompleted_update_focus room Hm). symmetry. exact Hm.
    + rewrite (timerCompleted_update_break room Hm). reflexivity.
Qed.

Lemma updateOf_coherent (StringToNumber : string -> JsNumber) (now now' : Z)
    (request : Request) (room room' : Room) :
  updateOf StringToNumber now now' request room = Some room' ->
  coherent (timerState room').
Proof.
  destruct request as [ | v | | v | ]; cbn.
  - intros [= <-]. apply (coherent_running _ now); reflexivity.
  - intros [= <-]. apply coherent_stopped; reflexivity.
  - intros [= <-]. apply coherent_stopped; reflexivity.
  - destruct (asMode v) as [m | ]; cbn; [ | discriminate].
    intros [= <-]. apply coherent_stopped; apply changeTimerMode_update_stops.
  - intros [= <-]. apply coherent_stopped; apply timerCompleted_update_stops.
Qed.

(** The room a request finds under an id after a request, against the room
    that was there before. *)
Lemma handle_lookup
    (findRejects : string -> bool) (saveRejects : Room -> bool)
    (StringToNumber : string -> JsNumber) (now now' : Z) (userId roomId : string)
    (request : Request) (w : World) (other : string) (room : Room) :
  db w !! other = Some room ->
  exists room' : Room,
    db (run (handle findRejects saveRejects StringToNumber now now' userId roomId request) w)
      !! other = Some room' /\
    (room' = room \/
     (other = roomId /\ isUserHost room userId = true /\
      updateOf StringToNumber now now' request room = Some room')).
Proof.
  intros Hother.
  destruct (handle_outcome findRejects saveRejects StringToNumber now now' userId roomId
              request w)
    as [[message ->] | (r & r' & event & p & _ & Hroom & Hhost & Hupd & _ & ->)].
  - exists room. split; [exact Hother | left; reflexivity].
  - unfold committed; cbn.
    destruct (decide (other = roomId)) as [-> | Hne].
    + rewrite lookup_insert_eq. rewrite Hroom in Hother. injection Hother as ->.
      exists r'. split; [reflexivity | right; repeat split; assumption].
    + rewrite lookup_insert_ne by (intros H; apply Hne; symmetry; exact H).
      exists room. split; [exact Hother | left; reflexivity].
Qed.

(** X5: over any sequence of timer requests, by any users, for any rooms
    and with any store failures in between, a stored room stays stored and
    its cycle count never decreases; it grows by at most one per request. *)
Theorem cycleCount_never_decreases
    (findRejects : string -> bool) (saveRejects : Room -> bool)
    (StringToNumber : string -> JsNumber) (calls : list Call) (w : World)
    (roomId : string) (room : Room) :
  db w !! roomId = Some room ->
  exists room' : Room,
    db (serve findRejects saveRejects StringToNumber calls w) !! roomId = Some room' /\
    cycleCount (timerState room) <= cycleCount (timerState room') /\
    cycleCount (timerState room') <= cycleCount (timerState room) + Z.of_nat (length calls).
Proof.
  revert w room. induction calls as [ | c calls IH]; intros w room Hroom.
  - exists room. cbn. split; [exact Hroom | lia].
  - cbn [serve fold_left].
    destruct (handle_lookup findRejects saveRejects StringToNumber (callNow c) (callNow' c)
                (callUser c) (callRoom c) (callRequest c) w roomId room Hroom)
      as (room1 & Hroom1 & Hstep).
    destruct (IH _ room1 Hroom1) as (room' & Hroom' & Hlo & Hhi).
    exists room'. split; [exact Hroom' |].
    assert (Hone : cycleCount (timerState room) <= cycleCount (timerState room1)
                   <= cycleCount (timerState room) + 1).
    { destruct Hstep as [-> | (_ & _ & Hupd)]; [lia |].
      destruct (updateOf_cycleCount _ _ _ _ _ _ Hupd) as [-> | (-> & _)]; lia. }
    cbn [length]. lia.
Qed.

Lemma cycleCount_never_decreases_witness :
  exists room' : Room,
    db (serve never never noNumber
          [mkCall 1000 1000 "host-1" "room-1" TimerCompleted;
           mkCall 2000 2000 "guest-2" "room-1" TimerCompleted;
           mkCall 3000 3000 "host-1" "room-1" (ChangeTimerMode (JString "shortBreak"))]
          (sampleWorld (sampleRoom focus 0 None 2))) !! "room-1" = Some room' /\
    2 <= cycleCount (timerState room') /\
    cycleCount (timerState room') <= 2 + 3.
Proof.
  apply (cycleCount_never_decreases never never noNumber
           [mkCall 1000 1000 "host-1" "room-1" TimerCompleted;
            mkCall 2000 2000 "guest-2" "room-1" TimerCompleted;
            mkCall 3000 3000 "host-1" "room-1" (ChangeTimerMode (JString "shortBreak"))]
           (sampleWorld (sampleRoom focus 0 None 2)) "room-1" (sampleRoom focus 0 None 2)).
  reflexivity.
Defined.

(** X6: one request changes the cycle count of a stored room only if it
    is Complete for that room by its host while the mode is focus, and then
    by exactly 1; and it changes the mode only if it is Change Mode for that
    room by its host, to the mode it names.  Complete never changes the
    mode: it only suggests the next one. *)
Theorem only_complete_counts_only_change_mode_switches
    (findRejects : string -> bool) (saveRejects : Room -> bool)
    (StringToNumber : string -> JsNumber) (now now' : Z) (userId roomId : string)
    (request : Request) (w : World) (other : string) (room room' : Room) :
  db w !! other = Some room ->
  db (run (handle findRejects saveRejects StringToNumber now now' userId roomId request) w)
    !! other = Some room' ->
  (cycleCount (timerState room') <> cycleCount (timerState room) ->
     cycleCount (timerState room') = cycleCount (timerState room) + 1 /\
     request = TimerCompleted /\ other = roomId /\ isUserHost room userId = true /\
     mode (timerState room) = focus) /\
  (mode (timerState room') <> mode (timerState room) ->
     request = ChangeTimerMode (JString (modeName (mode (timerState room')))) /\
     other = roomId /\ isUserHost room userId = true).
Proof.
  intros Hroom Hroom'.
  destruct (handle_lookup findRejects saveRejects StringToNumber now now' userId roomId
              request w other room Hroom) as (r & Hr & Hstep).
  rewrite Hr in Hroom'. injection Hroom' as ->.
  destruct Hstep as [-> | (-> & Hhost & Hupd)].
  - split; intros H; contradiction H; reflexivity.
  - split.
    + intros Hne.
      destruct (updateOf_cycleCount _ _ _ _ _ _ Hupd) as [Heq | (Hinc & Hreq & Hmode)];
        [contradiction |].
      repeat split; assumption.
    + intros Hne.
      destruct (updateOf_mode _ _ _ _ _ _ Hupd) as [Heq | Hreq]; [contradiction |].
      repeat split; assumption.
Qed.

Lemma only_complete_counts_only_change_mode_switches_witness :
  let room := sampleRoom focus 0 None 2 in
  let room' := mkRoom "host-1" (mkTimerState focus (Num 0) false None None 3) None in
  (cycleCount (timerState room') <> cycleCount (timerState room) ->
     cycleCount (timerState room') = cycleCount (timerState room) + 1 /\
     TimerCompleted = TimerCompleted /\ "room-1" = "room-1" /\
     isUserHost room "host-1" = true /\ mode (timerState room) = focus) /\
  (mode (timerState room') <> mode (timerState room) ->
     TimerCompleted = ChangeTimerMode (JString (modeName (mode (timerState room')))) /\
     "room-1" = "room-1" /\ isUserHost room "host-1" = true).
Proof.
  apply (only_complete_counts_only_change_mode_switches never never noNumber 1000 1000
           "host-1" "room-1" TimerCompleted (sampleWorld (sampleRoom focus 0 None 2))
           "room-1" (sampleRoom focus 0 None 2)
           (mkRoom "host-1" (mkTimerState focus (Num 0) false None None 3) None));
    reflexivity.
Defined.

(** X7: if every stored timer agrees on [isRunning] and [startedAt]
    ([isRunning] is true exactly when [startedAt] is non-null), it still
    does after any sequence of timer requests, successful or not. *)
Theorem serve_keeps_store_coherent
    (findRejects : string -> bool) (saveRejects : Room -> bool)
    (StringToNumber : string -> JsNumber) (calls : list Call) (w : World) :
  coherentStore w ->
  coherentStore (serve findRejects saveRejects StringToNumber calls w).
Proof.
  revert w. induction calls as [ | c calls IH]; intros w Hw; [exact Hw |].
  cbn [serve fold_left]. apply IH.
  intros other room' Hroom'.
  destruct (handle_outcome findRejects saveRejects StringToNumber (callNow c) (callNow' c)
              (callUser c) (callRoom c) (callRequest c) w)
    as [[message Hrun] | (r & r' & event & p & _ & Hroom & _ & Hupd & _ & Hrun)];
    rewrite Hrun in Hroom'.
  - exact (Hw other room' Hroom').
  - unfold committed in Hroom'; cbn in Hroom'.
    destruct (decide (other = callRoom c)) as [-> | Hne].
    + rewrite lookup_insert_eq in Hroom'. injection Hroom' as <-.
      exact (updateOf_coherent _ _ _ _ _ _ Hupd).
    + rewrite lookup_insert_ne in Hroom' by (intros H; apply Hne; symmetry; exact H).
      exact (Hw other room' Hroom').
Qed.

Lemma serve_keeps_store_coherent_witness :
  coherentStore
    (serve never never noNumber
       [mkCall 1000 1000 "host-1" "room-1" StartTimer;
        mkCall 2000 2000 "host-1" "room-1" (PauseTimer JUndefined)]
       (sampleWorld (sampleRoom focus 1500 None 0))).
Proof.
  apply (serve_keeps_store_coherent never never noNumber
           [mkCall 1000 1000 "host-1" "room-1" StartTimer;
            mkCall 2000 2000 "host-1" "room-1" (PauseTimer JUndefined)]
           (sampleWorld (sampleRoom focus 1500 None 0))).
  intros roomId room. unfold sampleWorld; cbn.
  destruct (decide (roomId = "room-1")) as [-> | Hne].
  - rewrite lookup_singleton_eq. intros [= <-]. unfold coherent; cbn.
    split; [discriminate | intros H; contradiction H; reflexivity].
  - rewrite lookup_singleton_ne by (intros H; apply Hne; symmetry; exact H). discriminate.
Defined.

(* ================================================================== *)
(** ** Reset and Change Mode *)

Lemma timeByMode_duration (room : Room) (m : Mode) :
  timeByMode room m = orDefault (customDuration room m) (defaultDuration m).
Proof.
  unfold timeByMode, customDuration.
  destruct (timerSettings room) as [st | ]; destruct m; reflexivity.
Qed.

(** No entry of [timeByMode] is 0: a duration of 0 gives way to the
    default, and the defaults are not 0. *)
Lemma timeByMode_nonzero (room : Room) (m : Mode) : timeByMode room m <> 0.
Proof.
  rewrite timeByMode_duration. unfold orDefault.
  destruct (customDuration room m) as [z | ].
  - destruct (Z.eqb_spec z 0) as [_ | Hz]; [destruct m; discriminate | exact Hz].
  - destruct m; discriminate.
Qed.

Lemma resetTimer_update_timerState (room : Room) :
  timerState (resetTimer_update room) =
  mkTimerState (mode (timerState room)) (Num (timeByMode room (mode (timerState room))))
    false None None (cycleCount (timerState room)).
Proof.
  unfold resetTimer_update; cbn. unfold orElse.
  destruct (Z.eqb_spec (timeByMode room (mode (timerState room))) 0) as [Hz | _];
    [exfalso; exact (timeByMode_nonzero _ _ Hz) | reflexivity].
Qed.

Lemma resetTimer_update_room (room : Room) :
  resetTimer_update room =
  mkRoom (host room) (timerState (resetTimer_update room)) (timerSettings room).
Proof. reflexivity. Qed.

Lemma changeTimerMode_update_room (m : Mode) (room : Room) :
  changeTimerMode_update m room =
  mkRoom (host room) (timerState (changeTimerMode_update m room)) (timerSettings room).
Proof. unfold changeTimerMode_update; cbn. destruct m; reflexivity. Qed.

(** X8: Reset by the host, once saved, leaves the timer stopped with
    [startedAt] and [pausedAt] null, the mode and the cycle count as they
    were, and as remaining time the duration the room sets for the current
    mode, or the default of that mode (1500, 300, 900) where the room sets
    none or sets 0; the remaining time after Reset is never 0, and the
    fallback to the focus duration is never taken. *)
Theorem reset_restores_configured_duration
    (findRejects : string -> bool) (saveRejects : Room -> bool)
    (userId roomId : string) (w : World) (room : Room) :
  findRejects roomId = false ->
  db w !! roomId = Some room ->
  isUserHost room userId = true ->
  saveRejects (resetTimer_update room) = false ->
  let m := mode (timerState room) in
  let duration :=
    match customDuration room m with
    | Some z => if Z.eqb z 0 then defaultDuration m else z
    | None => defaultDuration m
    end in
  let t' := mkTimerState m (Num duration) false None None (cycleCount (timerState room)) in
  run (handleResetTimer findRejects saveRejects userId roomId) w
  = committed roomId (mkRoom (host room) t' (timerSettings room)) "timer-reset"
      (PTimerState t') w
  /\ duration <> 0.
Proof.
  intros Hfind Hroom Hhost Hsave m duration t'.
  assert (Hd : duration = timeByMode room m).
  { subst duration. rewrite timeByMode_duration. reflexivity. }
  split.
  - rewrite handleResetTimer_run, Hfind, Hroom, Hhost. cbn zeta. rewrite Hsave.
    rewrite resetTimer_update_room, resetTimer_update_timerState.
    subst t'. rewrite Hd. reflexivity.
  - rewrite Hd. apply timeByMode_nonzero.
Qed.

Lemma reset_restores_configured_duration_witness :
  let room :=
    mkRoom "host-1" (mkTimerState shortBreak (Num 12) true (Some 1000000) (Some 900000) 5)
      (Some (mkTimerSettings (Some 3000) (Some 0) None)) in
  let w := sampleWorld room in
  let t' := mkTimerState shortBreak (Num 300) false None None 5 in
  run (handleResetTimer never never "host-1" "room-1") w
  = committed "room-1" (mkRoom "host-1" t' (timerSettings room)) "timer-reset"
      (PTimerState t') w
  /\ 300 <> 0.
Proof.
  apply (reset_restores_configured_duration never never "host-1" "room-1"
           (sampleWorld
              (mkRoom "host-1"
                 (mkTimerState shortBreak (Num 12) true (Some 1000000) (Some 900000) 5)
                 (Some (mkTimerSettings (Some 3000) (Some 0) None))))
           (mkRoom "host-1"
              (mkTimerState shortBreak (Num 12) true (Some 1000000) (Some 900000) 5)
              (Some (mkTimerSettings (Some 3000) (Some 0) None))));
    reflexivity.
Defined.

(** X9: Change Mode to the mode the timer is already in stores exactly
    what Reset stores: whoever asks and whatever the store does, the two
    requests leave the same store behind (they differ in the name of the
    event only). *)
Theorem change_to_current_mode_is_reset
    (findRejects : string -> bool) (saveRejects : Room -> bool)
    (userId roomId : string) (w : World) (room : Room) :
  db w !! roomId = Some room ->
  db (run (handleChangeTimerMode findRejects saveRejects userId roomId
             (JString (modeName (mode (timerState room))))) w)
  = db (run (handleResetTimer findRejects saveRejects userId roomId) w).
Proof.
  intros Hroom.
  rewrite handleChangeTimerMode_run, handleResetTimer_run, Hroom, asMode_modeName.
  destruct (findRejects roomId); [reflexivity |].
  destruct (isUserHost room userId); [ | reflexivity].
  cbn zeta.
  assert (Hsame : changeTimerMode_update (mode (timerState room)) room
                  = resetTimer_update room).
  { rewrite changeTimerMode_update_room, resetTimer_update_room.
    rewrite changeTimerMode_update_timerState, resetTimer_update_timerState. reflexivity. }
  rewrite Hsame. destruct (saveRejects _); reflexivity.
Qed.

Lemma change_to_current_mode_is_reset_witness :
  db (run (handleChangeTimerMode never never "host-1" "room-1" (JString "longBreak"))
        (sampleWorld (sampleRoom longBreak 40 (Some 1000000) 4)))
  = db (run (handleResetTimer never never "host-1" "room-1")
          (sampleWorld (sampleRoom longBreak 40 (Some 1000000) 4))).
Proof.
  apply (change_to_current_mode_is_reset never never "host-1" "room-1"
           (sampleWorld (sampleRoom longBreak 40 (Some 1000000) 4))
           (sampleRoom longBreak 40 (Some 1000000) 4)).
  reflexivity.
Defined.

Lemma timeByMode_settings (room1 room2 : Room) (m : Mode) :
  timerSettings room1 = timerSettings room2 -> timeByMode room1 m = timeByMode room2 m.
Proof. intros H. unfold timeByMode. rewrite H. reflexivity. Qed.

Lemma resetTimer_update_idempotent (room : Room) :
  resetTimer_update (resetTimer_update room) = resetTimer_update room.
Proof.
  rewrite (resetTimer_update_room (resetTimer_update room)).
  rewrite (resetTimer_update_timerState (resetTimer_update room)).
  change (host (resetTimer_update room)) with (host room).
  change (timerSettings (resetTimer_update room)) with (timerSettings room).
  rewrite (timeByMode_settings (resetTimer_update room) room) by reflexivity.
  rewrite !resetTimer_update_timerState. cbn [mode cycleCount].
  rewrite (resetTimer_update_room room), resetTimer_update_timerState. reflexivity.
Qed.

(** X10: Reset is idempotent on the store: a second Reset of the same room
    by the same requester, with the same store behaviour, leaves the store
    as the first one left it. *)
Theorem reset_twice_is_reset
    (findRejects : string -> bool) (saveRejects : Room -> bool)
    (userId roomId : string) (w : World) :
  db (run (handleResetTimer findRejects saveRejects userId roomId)
        (run (handleResetTimer findRejects saveRejects userId roomId) w))
  = db (run (handleResetTimer findRejects saveRejects userId roomId) w).
Proof.
  rewrite (handleResetTimer_run findRejects saveRejects userId roomId w).
  destruct (findRejects roomId) eqn:Hfind.
  { rewrite handleResetTimer_run, Hfind. reflexivity. }
  destruct (db w !! roomId) as [room | ] eqn:Hroom.
  2: { rewrite handleResetTimer_run, Hfind. cbn. rewrite Hroom. reflexivity. }
  destruct (isUserHost room userId) eqn:Hhost.
  2: { rewrite handleResetTimer_run, Hfind. cbn. rewrite Hroom, Hhost. reflexivity. }
  cbn zeta. destruct (saveRejects (resetTimer_update room)) eqn:Hsave.
  { rewrite handleResetTimer_run, Hfind. cbn. rewrite Hroom, Hhost. cbn zeta.
    rewrite Hsave. reflexivity. }
  rewrite handleResetTimer_run, Hfind. unfold committed at 1 2. cbn [db].
  rewrite lookup_insert_eq.
  pose proof (resetTimer_update_idempotent room) as Hagain.
  assert (Hhost' : isUserHost (resetTimer_update room) userId = true) by exact Hhost.
  rewrite Hhost'. cbn zeta. rewrite Hagain, Hsave.
  unfold committed; cbn. apply insert_insert_eq.
Qed.

(* ================================================================== *)
(** ** Reconciliation over time *)

(** X11: for a running timer with a stored number of seconds, the
    reconciled remaining time never grows as the observation instant
    advances, does not change within the first second after [startedAt],
    and is 0 from the instant the stored seconds have elapsed. *)
Theorem reconciliation_is_monotone (t : TimerState) (s z now1 now2 : Z) :
  isRunning t = true ->
  startedAt t = Some s ->
  timeRemaining t = Num z ->
  now1 <= now2 ->
  exists r1 r2 : Z,
    timeRemaining (calculateCurrentTimerState now1 t) = Num r1 /\
    timeRemaining (calculateCurrentTimerState now2 t) = Num r2 /\
    0 <= r2 <= r1 /\
    (s <= now1 < s + 1000 -> r1 = Z.max 0 z) /\
    (s + 1000 * z <= now1 -> r1 = 0).
Proof.
  intros Hr Hs Hz Hle.
  rewrite !(calculateCurrentTimerState_running _ t s Hr Hs), Hz. cbn.
  eexists _, _. split; [reflexivity |]. split; [reflexivity |].
  unfold elapsedSeconds.
  assert (Hmono : (now1 - s) / 1000 <= (now2 - s) / 1000)
    by (apply Z.div_le_mono; lia).
  split; [lia |]. split.
  - intros Hfirst. rewrite Z.div_small by lia. f_equal. lia.
  - intros Hdone.
    assert (z <= (now1 - s) / 1000) by (apply Z.div_le_lower_bound; lia).
    lia.
Qed.

Lemma reconciliation_is_monotone_witness :
  exists r1 r2 : Z,
    timeRemaining
      (calculateCurrentTimerState 1030000
         (mkTimerState focus (Num 100) true (Some 1000000) None 0)) = Num r1 /\
    timeRemaining
      (calculateCurrentTimerState 1030999
         (mkTimerState focus (Num 100) true (Some 1000000) None 0)) = Num r2 /\
    0 <= r2 <= r1 /\
    (1000000 <= 1030000 < 1000000 + 1000 -> r1 = Z.max 0 100) /\
    (1000000 + 1000 * 100 <= 1030000 -> r1 = 0).
Proof.
  apply (reconciliation_is_monotone (mkTimerState focus (Num 100) true (Some 1000000) None 0)
           1000000 100 1030000 1030999);
    first [reflexivity | lia].
Defined.

(* ================================================================== *)
(** ** Pause, whatever the client sends *)

Lemma handlePauseTimer_committed
    (findRejects : string -> bool) (saveRejects : Room -> bool)
    (StringToNumber : string -> JsNumber) (now now' : Z) (userId roomId : string)
    (v : JsValue) (w : World) (room : Room) :
  findRejects roomId = false ->
  db w !! roomId = Some room ->
  isUserHost room userId = true ->
  saveRejects (pauseTimer_update StringToNumber now now' v room) = false ->
  persisted
    (run (handlePauseTimer findRejects saveRejects StringToNumber now now' userId roomId v) w)
    roomId
  = Some (timerState (pauseTimer_update StringToNumber now now' v room)).
Proof.
  intros Hfind Hroom Hhost Hsave.
  rewrite handlePauseTimer_run, Hfind, Hroom, Hhost. cbn zeta. rewrite Hsave.
  apply persisted_committed.
Qed.



(** X13: on a timer that is not running, Pause with a number stores that
    number floored at 0 as the remaining time, whatever was stored: the
    stored value is not consulted, so the suggestion can also lengthen the
    timer; null stores 0. *)
Theorem pause_stopped_stores_suggestion
    (findRejects : string -> bool) (saveRejects : Room -> bool)
    (StringToNumber : string -> JsNumber) (now now' : Z) (userId roomId : string)
    (c : Z) (w : World) (room : Room) :
  findRejects roomId = false ->
  db w !! roomId = Some room ->
  isUserHost room userId = true ->
  isRunning (timerState room) = false ->
  saveRejects (pauseTimer_update StringToNumber now now' (JNumber (Num c)) room) = false ->
  persisted
    (run (handlePauseTimer findRejects saveRejects StringToNumber now now' userId roomId
            (JNumber (Num c))) w) roomId
  = Some (mkTimerState (mode (timerState room)) (Num (Z.max 0 c)) false None (Some now')
            (cycleCount (timerState room)))
  /\ timeRemaining
       (timerState (pauseTimer_update StringToNumber now now' JNull room)) = Num 0.
Proof.
  intros Hfind Hroom Hhost Hstopped Hsave.
  split.
  - rewrite (handlePauseTimer_committed _ _ _ _ _ _ _ _ _ _ Hfind Hroom Hhost Hsave).
    rewrite (pauseTimer_update_stopped StringToNumber now now' _ room Hstopped).
    reflexivity.
  - rewrite (pauseTimer_update_stopped StringToNumber now now' _ room Hstopped).
    reflexivity.
Qed.

Lemma pause_stopped_stores_suggestion_witness :
  persisted
    (run (handlePauseTimer never never noNumber 5000 5001 "host-1" "room-1"
            (JNumber (Num 86400))) (sampleWorld (sampleRoom focus 100 None 0))) "room-1"
  = Some (mkTimerState focus (Num (Z.max 0 86400)) false None (Some 5001) 0)
  /\ timeRemaining
       (timerState (pauseTimer_update noNumber 5000 5001 JNull (sampleRoom focus 100 None 0)))
     = Num 0.
Proof.
  apply (pause_stopped_stores_suggestion never never noNumber 5000 5001 "host-1" "room-1"
           86400 (sampleWorld (sampleRoom focus 100 None 0)) (sampleRoom focus 100 None 0));
    reflexivity.
Defined.

(* ================================================================== *)
(** ** Operations in sequence *)









(* ================================================================== *)
(** ** The chat handler: trimming *)

Lemma trimStart_split (s : list N) :
  exists ws : list N, s = (ws ++ Chat.trimStart s)%list /\ forallb Chat.isWhiteSpace ws = true.
Proof.
  induction s as [ | c rest (ws & Hsplit & Hws)].
  - exists []. split; reflexivity.
  - cbn. destruct (Chat.isWhiteSpace c) eqn:Hc.
    + exists (c :: ws). cbn. rewrite Hc, Hws. split; [f_equal; exact Hsplit | reflexivity].
    + exists []. split; reflexivity.
Qed.

Lemma trimStart_head (s : list N) (c : N) (rest : list N) :
  Chat.trimStart s = c :: rest -> Chat.isWhiteSpace c = false.
Proof.
  induction s as [ | d s IH]; cbn; [discriminate |].
  destruct (Chat.isWhiteSpace d) eqn:Hd; [exact IH |].
  intros [= -> _]. exact Hd.
Qed.

Lemma trimStart_whitespace (s : list N) :
  Chat.trimStart s = [] <-> forallb Chat.isWhiteSpace s = true.
Proof.
  induction s as [ | c s IH]; cbn; [split; reflexivity |].
  destruct (Chat.isWhiteSpace c); cbn; [exact IH | split; discriminate].
Qed.

Lemma trimEnd_split (s : list N) :
  exists ws : list N, s = (Chat.trimEnd s ++ ws)%list /\ forallb Chat.isWhiteSpace ws = true.
Proof.
  destruct (trimStart_split (rev s)) as (ws & Hsplit & Hws).
  exists (rev ws). split.
  - unfold Chat.trimEnd. rewrite <- rev_app_distr, <- Hsplit, rev_involutive. reflexivity.
  - rewrite forallb_forall in *. intros x Hx. apply Hws. apply in_rev. exact Hx.
Qed.

Lemma trimEnd_last (s : list N) (c : N) :
  last (Chat.trimEnd s) = Some c -> Chat.isWhiteSpace c = false.
Proof.
  unfold Chat.trimEnd.
  destruct (Chat.trimStart (rev s)) as [ | d rest] eqn:Hstart; [discriminate |].
  cbn [rev]. rewrite last_snoc. intros [= <-].
  exact (trimStart_head _ _ _ Hstart).
Qed.

Lemma trim_head (s : list N) (c : N) :
  head (Chat.trim s) = Some c -> Chat.isWhiteSpace c = false.
Proof.
  unfold Chat.trim.
  destruct (trimEnd_split (Chat.trimStart s)) as (ws & Hsplit & _).
  destruct (Chat.trimEnd (Chat.trimStart s)) as [ | d rest]; [discriminate |].
  intros [= ->]. exact (trimStart_head _ _ _ Hsplit).
Qed.

Lemma trim_length (s : list N) : (length (Chat.trim s) <= length s)%nat.
Proof.
  unfold Chat.trim.
  destruct (trimStart_split s) as (ws1 & H1 & _).
  destruct (trimEnd_split (Chat.trimStart s)) as (ws2 & H2 & _).
  rewrite H1 at 2. rewrite H2 at 2. rewrite !length_app. lia.
Qed.

Lemma trim_whitespace (s : list N) :
  forallb Chat.isWhiteSpace s = true -> Chat.trim s = [].
Proof.
  intros Hs. unfold Chat.trim. apply trimStart_whitespace in Hs. rewrite Hs. reflexivity.
Qed.

(* ================================================================== *)
(** ** The chat handler: which messages reach the room *)

Ltac chat_cases findRejects roomId message w user :=
  unfold Chat.handleSendMessage;
  destruct (String.eqb_spec roomId "") as [Hid | Hid]; cbn [orb];
  [ | destruct message as [ | | b | [ | z] | units]; cbn [Chat.truthy negb];
      [ | | destruct b; cbn [negb] | | destruct (Z.eqb_spec z 0); cbn [negb]
        | destruct (Nat.eqb_spec (length units) 0); cbn [negb];
          [ | destruct (Nat.eqb_spec (length (Chat.trim units)) 0);
              [ | destruct (Nat.ltb_spec 500 (length (Chat.trim units)));
                  [ | destruct (findRejects roomId) eqn:Hfind;
                      [ | destruct (Chat.db w !! roomId) as [room | ] eqn:Hroom;
                          [ destruct (Chat.isUserInRoom room user) eqn:Hmember;
                            cbn [negb] | ] ] ] ] ] ] ].

Lemma chat_outbox_socket (event message : string) (w : Chat.World) :
  Chat.outbox (Chat.socket_emit event message w)
  = (Chat.outbox w ++ [Chat.ToSocket event message])%list.
Proof. reflexivity. Qed.

Lemma orString_nonempty (a : option string) (b : string) :
  b <> "" -> Chat.orString a b <> "".
Proof.
  intros Hb. unfold Chat.orString. destruct a as [s | ]; [ | exact Hb].
  destruct (String.eqb_spec s "") as [_ | Hs]; assumption.
Qed.

(** X16: whatever is sent, the chat handler adds exactly one event to the
    outbox and never writes to the store.  If that event goes to a room, it
    is "new-message" for the room named in the request, the requester has an
    entry in [room.users] of that room, and the text it carries is the text
    sent with the white space at both ends removed: it has between 1 and 500
    code units and neither begins nor ends with white space; the sender
    name it carries is not empty. *)
Theorem chat_broadcasts_only_valid_messages
    (findRejects : string -> bool) (now now' : Z) (user : Chat.SocketUser)
    (roomId : string) (message : Chat.MessageValue) (w : Chat.World) :
  let w' := Chat.handleSendMessage findRejects now now' user roomId message w in
  Chat.db w' = Chat.db w /\
  exists e : Chat.Emit,
    Chat.outbox w' = (Chat.outbox w ++ [e])%list /\
    match e with
    | Chat.ToSocket event _ => event = "error"
    | Chat.ToRoom target event data =>
        target = roomId /\ event = "new-message" /\
        (exists units : list N,
           message = Chat.MString units /\
           data = Chat.messageData now now' user (Chat.trim units)) /\
        (exists room : Chat.Room,
           Chat.db w !! roomId = Some room /\ Chat.isUserInRoom room user = true) /\
        (1 <= length (Chat.md_message data) <= 500)%nat /\
        (forall c : N,
           head (Chat.md_message data) = Some c \/ last (Chat.md_message data) = Some c ->
           Chat.isWhiteSpace c = false) /\
        Chat.md_name data <> "" /\
        Chat.md_userId data = Chat.id user
    end.
Proof.
  intros w'. subst w'.
  chat_cases findRejects roomId message w user;
    (split; [reflexivity |]);
    try (eexists; split; [reflexivity | reflexivity]).
  eexists. split; [reflexivity |].
  split; [reflexivity |]. split; [reflexivity |].
  split; [exists units; split; reflexivity |].
  split; [exists room; split; [reflexivity | exact Hmember] |].
  cbn [Chat.messageData Chat.md_message Chat.md_name Chat.md_userId].
  split; [lia |].
  split.
  - intros c [Hc | Hc]; [exact (trim_head _ _ Hc) | exact (trimEnd_last _ _ Hc)].
  - split; [ | reflexivity].
    apply orString_nonempty, orString_nonempty. discriminate.
Qed.

(** The membership test of the handler: some entry of [room.users] has
    a [userId] that is not empty and is the id of the requester. *)
Lemma isUserInRoom_spec (room : Chat.Room) (user : Chat.SocketUser) :
  Chat.isUserInRoom room user = true <->
  Chat.id user <> "" /\
  exists u : Chat.RoomUser, In u (Chat.users room) /\ Chat.userId u = Some (Chat.id user).
Proof.
  unfold Chat.isUserInRoom. rewrite existsb_exists. split.
  - intros (u & Hin & Hu).
    destruct (Chat.userId u) as [i | ] eqn:Hi; [ | discriminate Hu].
    apply andb_true_iff in Hu. destruct Hu as [Hne Heq].
    apply String.eqb_eq in Heq. subst i.
    split.
    + intros Hempty. rewrite Hempty in Hne. discriminate Hne.
    + exists u. split; assumption.
  - intros (Hne & u & Hin & Hu). exists u. split; [exact Hin |]. rewrite Hu.
    apply andb_true_iff. split.
    + destruct (String.eqb_spec (Chat.id user) "") as [E | _]; [contradiction | reflexivity].
    + apply String.eqb_refl.
Qed.

(** X17: a message reaches the room exactly when the room id is not
    empty, the message is a string whose trimmed text has between 1 and 500
    code units (white space around it does not count), the store finds the
    room, the id of the requester is not empty and some entry of the
    [users] of the room carries that id. *)
Theorem chat_message_is_broadcast_iff
    (findRejects : string -> bool) (now now' : Z) (user : Chat.SocketUser)
    (roomId : string) (message : Chat.MessageValue) (w : Chat.World) :
  (exists (target event : string) (data : Chat.MessageData),
     Chat.outbox (Chat.handleSendMessage findRejects now now' user roomId message w)
     = (Chat.outbox w ++ [Chat.ToRoom target event data])%list)
  <->
  (roomId <> "" /\
   exists (units : list N) (room : Chat.Room),
     message = Chat.MString units /\
     (1 <= length (Chat.trim units) <= 500)%nat /\
     findRejects roomId = false /\
     Chat.db w !! roomId = Some room /\
     Chat.id user <> "" /\
     exists u : Chat.RoomUser,
       In u (Chat.users room) /\ Chat.userId u = Some (Chat.id user)).
Proof.
  split.
  - intros (target & event & data & Hout). revert Hout.
    chat_cases findRejects roomId message w user;
      try (rewrite chat_outbox_socket; intros Hout; apply app_inv_head in Hout;
           discriminate Hout).
    intros _. split; [exact Hid |].
    apply isUserInRoom_spec in Hmember. destruct Hmember as [Hne Hentry].
    exists units, room. repeat split; first [assumption | lia].
  - intros (Hid & units & room & -> & Hlen & Hfind & Hroom & Hne & Hentry).
    assert (Hmember : Chat.isUserInRoom room user = true)
      by (apply isUserInRoom_spec; split; assumption).
    pose proof (trim_length units) as Hle.
    unfold Chat.handleSendMessage.
    destruct (String.eqb_spec roomId "") as [E | _]; [contradiction |]. cbn [orb].
    cbn [Chat.truthy].
    destruct (Nat.eqb_spec (length units) 0) as [E | _]; [lia |]. cbn [negb].
    destruct (Nat.eqb_spec (length (Chat.trim units)) 0) as [E | _]; [lia |].
    destruct (Nat.ltb_spec 500 (length (Chat.trim units))) as [E | _]; [lia |].
    rewrite Hfind, Hroom, Hmember. cbn [negb].
    eexists _, _, _. reflexivity.
Qed.

(** X18: the text of a message is checked before the store is asked: with
    a non-empty room id, a non-empty message made of white space only is
    answered "Message cannot be empty" and a message whose trimmed text has
    more than 500 code units "Message too long (max 500 characters)",
    whether or not the room exists, the lookup fails or the requester is in
    the room. *)
Theorem chat_checks_text_before_room
    (findRejects : string -> bool) (now now' : Z) (user : Chat.SocketUser)
    (roomId : string) (units : list N) (w : Chat.World) :
  roomId <> "" ->
  units <> [] ->
  let w' :=
    Chat.handleSendMessage findRejects now now' user roomId (Chat.MString units) w in
  (forallb Chat.isWhiteSpace units = true ->
     w' = Chat.socket_emit "error" "Message cannot be empty" w) /\
  ((500 < length (Chat.trim units))%nat ->
     w' = Chat.socket_emit "error" "Message too long (max 500 characters)" w).
Proof.
  intros Hid Hunits w'. subst w'. unfold Chat.handleSendMessage.
  destruct (String.eqb_spec roomId "") as [E | _]; [contradiction |]. cbn [orb Chat.truthy].
  destruct (Nat.eqb_spec (length units) 0) as [E | _];
    [destruct units; [contradiction | discriminate E] |].
  cbn [negb]. split.
  - intros Hws. rewrite (trim_whitespace units Hws). reflexivity.
  - intros Hlong.
    destruct (Nat.eqb_spec (length (Chat.trim units)) 0) as [E | _]; [lia |].
    destruct (Nat.ltb_spec 500 (length (Chat.trim units))) as [_ | E]; [reflexivity | lia].
Qed.

Lemma chat_checks_text_before_room_witness :
  let w' :=
    Chat.handleSendMessage (fun _ => true) 1000 1001 Chat.sampleUser "no-such-room"
      (Chat.MString [32; 9; 10]%N) Chat.sampleWorld in
  (forallb Chat.isWhiteSpace [32; 9; 10]%N = true ->
     w' = Chat.socket_emit "error" "Message cannot be empty" Chat.sampleWorld) /\
  ((500 < length (Chat.trim [32; 9; 10]%N))%nat ->
     w' = Chat.socket_emit "error" "Message too long (max 500 characters)" Chat.sampleWorld).
Proof.
  apply (chat_checks_text_before_room (fun _ => true) 1000 1001 Chat.sampleUser
           "no-such-room" [32; 9; 10]%N Chat.sampleWorld);
    discriminate.
Defined.

(** X19: a message that is not a string is never delivered.  A falsy one
    (missing, null, false, 0, NaN, and the empty string too) is answered
    "Room ID and message are required"; a truthy one (true, a number other
    than 0) passes that check, fails at [message.trim()] and is answered
    "Failed to send message", the message of the [catch] block. *)
Theorem chat_message_that_is_no_string
    (findRejects : string -> bool) (now now' : Z) (user : Chat.SocketUser)
    (roomId : string) (message : Chat.MessageValue) (w : Chat.World) :
  roomId <> "" ->
  (forall units : list N, message = Chat.MString units -> units = []) ->
  Chat.handleSendMessage findRejects now now' user roomId message w
  = Chat.socket_emit "error"
      (if Chat.truthy message then "Failed to send message"
       else "Room ID and message are required") w.
Proof.
  intros Hid Hnostring. unfold Chat.handleSendMessage.
  destruct (String.eqb_spec roomId "") as [E | _]; [contradiction |]. cbn [orb].
  destruct message as [ | | b | [ | z] | units]; cbn [Chat.truthy negb];
    try reflexivity.
  - destruct b; reflexivity.
  - destruct (Z.eqb z 0); reflexivity.
  - rewrite (Hnostring units eq_refl). reflexivity.
Qed.

Lemma chat_message_that_is_no_string_witness :
  Chat.handleSendMessage never 1000 1001 Chat.sampleUser "room-1"
    (Chat.MNumber (Num 42)) Chat.sampleWorld
  = Chat.socket_emit "error"
      (if Chat.truthy (Chat.MNumber (Num 42)) then "Failed to send message"
       else "Room ID and message are required") Chat.sampleWorld.
Proof.
  apply (chat_message_that_is_no_string never 1000 1001 Chat.sampleUser "room-1"
           (Chat.MNumber (Num 42)) Chat.sampleWorld);
    [discriminate | intros units H; discriminate H].
Defined.

(** X20: a requester none of whose entries is in [room.users] of the room
    cannot post to it: for any valid text the answer is "You are not in this
    room", to the requester only.  Entries whose [userId] is null match no
    one, and ids are compared as whole strings. *)
Theorem chat_outsider_is_refused
    (findRejects : string -> bool) (now now' : Z) (user : Chat.SocketUser)
    (roomId : string) (units : list N) (w : Chat.World) (room : Chat.Room) :
  roomId <> "" ->
  (1 <= length (Chat.trim units) <= 500)%nat ->
  findRejects roomId = false ->
  Chat.db w !! roomId = Some room ->
  (forall u : Chat.RoomUser, In u (Chat.users room) -> Chat.userId u <> Some (Chat.id user)) ->
  Chat.handleSendMessage findRejects now now' user roomId (Chat.MString units) w
  = Chat.socket_emit "error" "You are not in this room" w.
Proof.
  intros Hid Hlen Hfind Hroom Houtside.
  pose proof (trim_length units) as Hle.
  assert (Hmember : Chat.isUserInRoom room user = false).
  { unfold Chat.isUserInRoom. apply not_true_is_false. intros Hex.
    apply existsb_exists in Hex. destruct Hex as (u & Hin & Hu).
    destruct (Chat.userId u) as [i | ] eqn:Hi; [ | discriminate Hu].
    apply andb_true_iff in Hu. destruct Hu as [_ Hu].
    apply String.eqb_eq in Hu. subst i. exact (Houtside u Hin Hi). }
  unfold Chat.handleSendMessage.
  destruct (String.eqb_spec roomId "") as [E | _]; [contradiction |]. cbn [orb Chat.truthy].
  destruct (Nat.eqb_spec (length units) 0) as [E | _]; [lia |]. cbn [negb].
  destruct (Nat.eqb_spec (length (Chat.trim units)) 0) as [E | _]; [lia |].
  destruct (Nat.ltb_spec 500 (length (Chat.trim units))) as [E | _]; [lia |].
  rewrite Hfind, Hroom, Hmember. reflexivity.
Qed.

Lemma chat_outsider_is_refused_witness :
  Chat.handleSendMessage never 1000 1001 (Chat.mkSocketUser "user-77" (Some "Eve") None)
    "room-1" (Chat.MString [104; 105]%N) Chat.sampleWorld
  = Chat.socket_emit "error" "You are not in this room" Chat.sampleWorld.
Proof.
  apply (chat_outsider_is_refused never 1000 1001
           (Chat.mkSocketUser "user-77" (Some "Eve") None) "room-1" [104; 105]%N
           Chat.sampleWorld
           (Chat.mkRoom [Chat.mkRoomUser None; Chat.mkRoomUser (Some "user-7")]));
    [discriminate | cbn; lia | reflexivity | reflexivity |].
  intros u [<- | [<- | []]]; discriminate.
Defined.

(* ================================================================== *)
(** ** Operations that complete *)

(** A valid request of the host whose document the store accepts commits
    that document and broadcasts its timer state. *)
Lemma handle_committed
    (findRejects : string -> bool) (saveRejects : Room -> bool)
    (StringToNumber : string -> JsNumber) (now now' : Z) (userId roomId : string)
    (request : Request) (w : World) (room room' : Room) :
  findRejects roomId = false ->
  db w !! roomId = Some room ->
  isUserHost room userId = true ->
  updateOf StringToNumber now now' request room = Some room' ->
  saveRejects room' = false ->
  exists (event : string) (p : Payload),
    run (handle findRejects saveRejects StringToNumber now now' userId roomId request) w
    = committed roomId room' event p w /\
    payloadTimerState p = Some (timerState room').
Proof.
  intros Hfind Hroom Hhost Hupd Hsave.
  destruct request as [ | v | | v | ]; unfold handle;
    [ rewrite handleStartTimer_run
    | rewrite handlePauseTimer_run
    | rewrite handleResetTimer_run
    | rewrite handleChangeTimerMode_run
    | rewrite handleTimerCompleted_run ];
    rewrite Hfind, Hroom, Hhost; cbn in Hupd;
    try (destruct (asMode v) as [m | ]; cbn in Hupd; [ | discriminate Hupd]);
    injection Hupd as Hupd; cbn zeta; rewrite Hupd, Hsave;
    eexists _, _; split; reflexivity.
Qed.

Lemma updateOf_running (StringToNumber : string -> JsNumber) (now now' : Z)
    (request : Request) (room room' : Room) :
  updateOf StringToNumber now now' request room = Some room' ->
  match request with
  | StartTimer =>
      isRunning (timerState room') = true /\ startedAt (timerState room') = Some now
  | _ => isRunning (timerState room') = false /\ startedAt (timerState room') = None
  end.
Proof.
  destruct request as [ | v | | v | ]; cbn.
  - intros [= <-]. split; reflexivity.
  - intros [= <-]. split; reflexivity.
  - intros [= <-]. split; reflexivity.
  - destruct (asMode v) as [m | ]; cbn; [ | discriminate].
    intros [= <-]. apply changeTimerMode_update_stops.
  - intros [= <-]. apply timerCompleted_update_stops.
Qed.

(** C5: each of the five operations, asked by the host of a stored room
    with a valid payload and saved by the store, stores a timer state and
    broadcasts that same state, and in it [isRunning] is true if and only if
    [startedAt] is non-null: Start sets [isRunning] and sets [startedAt] to
    now; Pause, Reset, Change Mode and Complete each clear [isRunning] and
    set [startedAt] to null, whatever the state was before. *)
Theorem isRunning_iff_startedAt
    (findRejects : string -> bool) (saveRejects : Room -> bool)
    (StringToNumber : string -> JsNumber) (now now' : Z) (userId roomId : string)
    (request : Request) (w : World) (room : Room) :
  findRejects roomId = false ->
  db w !! roomId = Some room ->
  isUserHost room userId = true ->
  (forall v : JsValue, request = ChangeTimerMode v -> is_Some (asMode v)) ->
  (forall room' : Room,
     updateOf StringToNumber now now' request room = Some room' ->
     saveRejects room' = false) ->
  let w' :=
    run (handle findRejects saveRejects StringToNumber now now' userId roomId request) w in
  exists (t' : TimerState) (event : string) (p : Payload),
    persisted w' roomId = Some t' /\
    emitted w w' = [ToRoom roomId event p] /\
    payloadTimerState p = Some t' /\
    match request with
    | StartTimer => isRunning t' = true /\ startedAt t' = Some now
    | _ => isRunning t' = false /\ startedAt t' = None
    end /\
    coherent t'.
Proof.
  intros Hfind Hroom Hhost Hvalid Hsave w'.
  assert (Hupd : exists room' : Room,
            updateOf StringToNumber now now' request room = Some room').
  { destruct request as [ | v | | v | ]; cbn; try (eexists; reflexivity).
    destruct (Hvalid v eq_refl) as [m ->]. eexists; reflexivity. }
  destruct Hupd as [room' Hupd].
  destruct (handle_committed findRejects saveRejects StringToNumber now now' userId roomId
              request w room room' Hfind Hroom Hhost Hupd (Hsave room' Hupd))
    as (event & p & Hrun & Hpayload).
  exists (timerState room'), event, p. subst w'. rewrite Hrun.
  split; [apply persisted_committed |].
  split; [apply emitted_committed |].
  split; [exact Hpayload |].
  split; [exact (updateOf_running _ _ _ _ _ _ Hupd) |].
  exact (updateOf_coherent _ _ _ _ _ _ Hupd).
Qed.

(** The host pauses a timer that has been running for 30 seconds. *)
Lemma isRunning_iff_startedAt_witness :
  let w := sampleWorld (sampleRoom focus 100 (Some 1000000) 0) in
  let w' :=
    run (handle never never noNumber 1030000 1030001 "host-1" "room-1"
           (PauseTimer JUndefined)) w in
  exists (t' : TimerState) (event : string) (p : Payload),
    persisted w' "room-1" = Some t' /\
    emitted w w' = [ToRoom "room-1" event p] /\
    payloadTimerState p = Some t' /\
    (isRunning t' = false /\ startedAt t' = None) /\
    coherent t'.
Proof.
  apply (isRunning_iff_startedAt never never noNumber 1030000 1030001 "host-1" "room-1"
           (PauseTimer JUndefined) (sampleWorld (sampleRoom focus 100 (Some 1000000) 0))
           (sampleRoom focus 100 (Some 1000000) 0));
    [reflexivity | reflexivity | reflexivity
    | intros v H; discriminate H | intros room' H; reflexivity].
Defined.





